(** * friends-of-friends: the friendship engine

    A shallow embedding of the three JavaScript sources
    - [src/lib/friendship.js]   (module [FriendshipModel]),
    - the second friendship module (module [FriendshipModelB]),
    - the account plugin (module [AccountModel]),
    over a small model of the mongoose collection they query. *)

From Stdlib Require Import List String Bool ZArith Arith Lia Permutation.
Import ListNotations.
Local Open Scope list_scope.

(* Comparisons against string literals stay folded under [simpl]. *)
Arguments String.eqb : simpl never.

(** * Values *)

(** An ObjectId is held through its hexadecimal text, which is what
    [toString] prints and what [equals] compares. *)
Record ObjectId : Type := OID { hex : string }.

Definition equals (a b : ObjectId) : bool := String.eqb (hex a) (hex b).

Definition toString (a : ObjectId) : string := hex a.

(** [Array.prototype.toString] joins the elements' texts with commas. *)
Definition array_toString (ids : list ObjectId) : string :=
  String.concat "," (map toString ids).

(** The two kinds of value that meet in [idsFound.indexOf(...)]. *)
Inductive jsval : Type :=
| JObjectId (o : ObjectId)
| JString (s : string).

(** What is handed to a callback as its first argument. *)
Inductive Error : Type :=
| ErrorObject (message : string)   (* new Error(message) *)
| ErrorString (message : string)   (* a bare string used as err *)
| DriverError (code : nat).        (* whatever the driver reports *)

(** One invocation of a node callback: [done(err)] or [done(null, value)]. *)
Inductive callback (A : Type) : Type :=
| Err (e : Error)
| Ok (value : A).
Arguments Err {A} e.
Arguments Ok {A} value.

(** What can escape a function instead of a callback invocation. *)
Inductive Exception : Type :=
| ReferenceError (identifier : string)
| Raised (e : Error).

Inductive outcome (A : Type) : Type :=
| Called (r : callback A)
| Thrown (x : Exception).
Arguments Called {A} r.
Arguments Thrown {A} x.

(** The members of the [relationships] module, which is not among the
    sources: the code only names them. *)
Inductive Relationship : Type := NOT_FRIENDS | FRIENDS_OF_FRIENDS | FRIENDS.

(** * The friendships collection *)

(** A document of [FriendshipSchema].  The [_id] of a document is not
    modelled: documents are told apart by content and by position. *)
Record Friendship : Type := mkFriendship {
  requester : ObjectId;
  requested : ObjectId;
  status : string;
  dateSent : Z;
  dateAccepted : option Z
}.

(** Query conditions, as far as the sources build them. *)
Inductive Conditions : Type :=
| Requester (a : ObjectId)
| Requested (a : ObjectId)
| Status (s : string)
| All (c d : Conditions)
| Any (c d : Conditions).

Fixpoint matches (c : Conditions) (f : Friendship) : bool :=
  match c with
  | Requester a => equals a (requester f)
  | Requested a => equals a (requested f)
  | Status s => String.eqb s (status f)
  | All c d => matches c f && matches d f
  | Any c d => matches c f || matches d f
  end.

(** The collection in natural (insertion) order, with the error the driver
    currently answers with, if any. *)
Record Db : Type := mkDb {
  docs : list Friendship;
  fault : option Error
}.

Definition healthy (ds : list Friendship) : Db := mkDb ds None.

Module Mongoose.

Definition find (db : Db) (c : Conditions) : callback (list Friendship) :=
  match fault db with
  | Some e => Err e
  | None => Ok (filter (matches c) (docs db))
  end.

Definition findOne (db : Db) (c : Conditions) : callback (option Friendship) :=
  match fault db with
  | Some e => Err e
  | None => Ok (List.find (matches c) (docs db))
  end.

(** [new Friendship({requester, requested})]: the schema defaults fill
    the rest. *)
Definition create (now : Z) (requesterId requestedId : ObjectId) : Friendship :=
  mkFriendship requesterId requestedId "Pending" now None.

Definition save (db : Db) (doc : Friendship) : callback Friendship * Db :=
  match fault db with
  | Some e => (Err e, db)
  | None => (Ok doc, mkDb (docs db ++ [doc]) None)
  end.

Record Updates : Type := mkUpdates {
  set_status : string;
  set_dateAccepted : Z
}.

Definition apply_updates (u : Updates) (f : Friendship) : Friendship :=
  mkFriendship (requester f) (requested f) (set_status u) (dateSent f)
               (Some (set_dateAccepted u)).

(** Rewrites the first matching document in place. *)
Fixpoint update_first (c : Conditions) (u : Updates) (ds : list Friendship)
  : option Friendship * list Friendship :=
  match ds with
  | [] => (None, [])
  | f :: rest =>
      if matches c f then (Some f, apply_updates u f :: rest)
      else let (found, rest') := update_first c u rest in (found, f :: rest')
  end.

(** The callers pass no [new] option, so which document comes back (the
    one before or after the update) is the driver's default:
    [returnNew]. *)
Definition findOneAndUpdate (returnNew : bool) (db : Db) (c : Conditions)
    (u : Updates) : callback (option Friendship) * Db :=
  match fault db with
  | Some e => (Err e, db)
  | None =>
      let (found, ds') := update_first c u (docs db) in
      (Ok (if returnNew then option_map (apply_updates u) found else found),
       mkDb ds' None)
  end.

Definition Friendship_eqb (f g : Friendship) : bool :=
  equals (requester f) (requester g) && equals (requested f) (requested g)
  && String.eqb (status f) (status g) && Z.eqb (dateSent f) (dateSent g)
  && match dateAccepted f, dateAccepted g with
     | Some x, Some y => Z.eqb x y
     | None, None => true
     | _, _ => false
     end.

Fixpoint remove_one (doc : Friendship) (ds : list Friendship) : list Friendship :=
  match ds with
  | [] => []
  | f :: rest => if Friendship_eqb doc f then rest else f :: remove_one doc rest
  end.

(** [doc.remove(done)]: the document itself is deleted. *)
Definition document_remove (db : Db) (doc : Friendship)
  : callback Friendship * Db :=
  match fault db with
  | Some e => (Err e, db)
  | None => (Ok doc, mkDb (remove_one doc (docs db)) None)
  end.

(** [Model.remove(conditions, done)]: every matching document is deleted;
    the callback receives how many. *)
Definition remove (db : Db) (c : Conditions) : callback nat * Db :=
  match fault db with
  | Some e => (Err e, db)
  | None =>
      (Ok (List.length (filter (matches c) (docs db))),
       mkDb (filter (fun f => negb (matches c f)) (docs db)) None)
  end.

End Mongoose.

(** * src/lib/friendship.js *)

Module FriendshipModel.

Definition acceptRequest (returnNew : bool) (db : Db) (now : Z)
    (requesterId requestedId : ObjectId) : callback Friendship * Db :=
  let conditions :=
    All (Requester requesterId) (All (Requested requestedId) (Status "Pending")) in
  let updates := Mongoose.mkUpdates "Accepted" now in
  match Mongoose.findOneAndUpdate returnNew db conditions updates with
  | (Err err, db') => (Err err, db')
  | (Ok (Some friendship), db') => (Ok friendship, db')
  | (Ok None, db') => (Err (ErrorObject "Request does not exist!"), db')
  end.

Definition denyRequest (db : Db) (requesterId requestedId : ObjectId)
  : callback Friendship * Db :=
  let conditions :=
    All (Requester requesterId) (All (Requested requestedId) (Status "Pending")) in
  match Mongoose.findOne db conditions with
  | Err err => (Err err, db)
  | Ok (Some request) => Mongoose.document_remove db request
  | Ok None => (Err (ErrorObject "Request does not exist!"), db)
  end.

(** The body of the [forEach] in [getFriends]: the side of the edge that
    is not [accountId]. *)
Definition friendId_of (accountId : ObjectId) (friendship : Friendship) : ObjectId :=
  if equals accountId (requester friendship)
  then requested friendship
  else requester friendship.

Definition getFriends (db : Db) (accountId : ObjectId) : callback (list ObjectId) :=
  let conditions :=
    All (Any (Requester accountId) (Requested accountId)) (Status "Accepted") in
  match Mongoose.find db conditions with
  | Err err => Err err
  | Ok friendships => Ok (map (friendId_of accountId) friendships)
  end.

Section FriendsOfFriends.

(** [===] on two objects asks whether they are one and the same object,
    which the value of an ObjectId does not decide: left open. *)
Variable same_object : ObjectId -> ObjectId -> bool.

Definition strict_equals (x y : jsval) : bool :=
  match x, y with
  | JString s, JString t => String.eqb s t
  | JObjectId o, JObjectId p => same_object o p
  | _, _ => false
  end.

Fixpoint indexOf_from (i : Z) (l : list jsval) (searchElement : jsval) : Z :=
  match l with
  | [] => (-1)%Z
  | y :: l' =>
      if strict_equals y searchElement then i
      else indexOf_from (i + 1)%Z l' searchElement
  end.

Definition indexOf (l : list jsval) (searchElement : jsval) : Z :=
  indexOf_from 0%Z l searchElement.

(** The variables the callbacks of [getFriendsOfFriends] share. *)
Record closure : Type := mkClosure {
  friendsOfFriendsIds : list ObjectId;
  totalResults : nat;
  idsFound : list jsval
}.

Definition closure0 : closure := mkClosure [] 0 [].

(** The body of the inner [forEach], for one friend of a friend. *)
Definition visit (accountId : ObjectId) (friendsOfFriendIds : list ObjectId)
    (st : closure) (friendOfFriendId : ObjectId) : closure :=
  if Z.eqb (indexOf (idsFound st) (JObjectId friendOfFriendId)) (-1)
     && negb (equals accountId friendOfFriendId)
  then mkClosure (friendsOfFriendsIds st ++ [friendOfFriendId])
                 (totalResults st)
                 (idsFound st ++ [JString (array_toString friendsOfFriendIds)])
  else st.

(** The callback of one [self.getFriends(friendId, ...)]: the new shared
    variables and the calls of [done] it makes. *)
Definition on_friends_of_friend (accountId : ObjectId) (friendIds : list ObjectId)
    (st : closure) (r : callback (list ObjectId))
  : closure * list (callback (list ObjectId)) :=
  match r with
  | Err err => (st, [Err err])
  | Ok friendsOfFriendIds =>
      let st1 := fold_left (visit accountId friendsOfFriendIds) friendsOfFriendIds st in
      let st2 := mkClosure (friendsOfFriendsIds st1) (S (totalResults st1))
                           (idsFound st1) in
      (st2, if Nat.eqb (totalResults st2) (List.length friendIds)
            then [Ok (friendsOfFriendsIds st2)] else [])
  end.

(** The sub-query callbacks run one after another, in the order
    [completions] in which the sub-queries answer. *)
Fixpoint deliver (accountId : ObjectId) (friendIds : list ObjectId) (st : closure)
    (completions : list (callback (list ObjectId)))
  : list (callback (list ObjectId)) :=
  match completions with
  | [] => []
  | r :: rest =>
      let (st', calls) := on_friends_of_friend accountId friendIds st r in
      calls ++ deliver accountId friendIds st' rest
  end.

(** [getFriendsOfFriends] as a function of what its queries answer:
    [first] for [this.getFriends(accountId, ...)], [completions] for the
    sub-queries.  The result is the list of calls of [done], in order. *)
Definition getFriendsOfFriends_on (accountId : ObjectId)
    (first : callback (list ObjectId))
    (completions : list (callback (list ObjectId)))
  : list (callback (list ObjectId)) :=
  match first with
  | Err err => [Err err]
  | Ok friendIds =>
      if Nat.eqb (List.length friendIds) 0 then [Ok []]
      else deliver accountId friendIds closure0 completions
  end.

(** On one store, the sub-queries answering in the order they are
    issued. *)
Definition getFriendsOfFriends (db : Db) (accountId : ObjectId)
  : list (callback (list ObjectId)) :=
  match getFriends db accountId with
  | Err err => [Err err]
  | Ok friendIds =>
      getFriendsOfFriends_on accountId (Ok friendIds)
                             (map (getFriends db) friendIds)
  end.

End FriendsOfFriends.

(** The [while] loop of [areFriends], from index [i] on: [rest] is
    [friendIds] from [i]. *)
Fixpoint areFriends_loop (accountId2 : ObjectId) (answer : bool)
    (rest : list ObjectId) : bool :=
  match rest with
  | [] => answer
  | friendId :: rest' =>
      if answer then answer
      else areFriends_loop accountId2
             (if equals accountId2 friendId then true else answer) rest'
  end.

Definition areFriends (db : Db) (accountId1 accountId2 : ObjectId) : callback bool :=
  match getFriends db accountId1 with
  | Err err => Err err
  | Ok friendIds =>
      Ok (if Nat.eqb (List.length friendIds) 0 then false
          else areFriends_loop accountId2 false friendIds)
  end.

(** The inner [while] loop of [areFriendsOfFriends], over [j]. *)
Fixpoint inner_loop (account1FriendId : ObjectId) (answer : bool)
    (rest2 : list ObjectId) : bool :=
  match rest2 with
  | [] => answer
  | id2 :: rest2' =>
      if answer then answer
      else inner_loop account1FriendId
             (if equals account1FriendId id2 then true else answer) rest2'
  end.

(** The outer [while] loop, over [i]. *)
Fixpoint outer_loop (answer : bool) (rest1 account2FriendIds : list ObjectId) : bool :=
  match rest1 with
  | [] => answer
  | id1 :: rest1' =>
      if answer then answer
      else outer_loop (inner_loop id1 answer account2FriendIds) rest1' account2FriendIds
  end.

Definition areFriendsOfFriends (db : Db) (accountId1 accountId2 : ObjectId)
  : callback bool :=
  match getFriends db accountId1 with
  | Err err => Err err
  | Ok account1FriendIds =>
      if Nat.ltb 0 (List.length account1FriendIds) then
        match getFriends db accountId2 with
        | Err err => Err err
        | Ok account2FriendIds =>
            if Nat.ltb 0 (List.length account2FriendIds)
            then Ok (outer_loop false account1FriendIds account2FriendIds)
            else Ok false
        end
      else Ok false
  end.

Definition getRelationship (db : Db) (accountId1 accountId2 : ObjectId)
  : callback Relationship :=
  match areFriends db accountId1 accountId2 with
  | Err err => Err err
  | Ok answer =>
      if answer then Ok FRIENDS
      else
        match areFriendsOfFriends db accountId1 accountId2 with
        | Err err => Err err
        | Ok answer' =>
            if answer' then Ok FRIENDS_OF_FRIENDS else Ok NOT_FRIENDS
        end
  end.

Definition getFriendship (db : Db) (accountId1 accountId2 : ObjectId)
  : callback (option Friendship) :=
  let conditions :=
    All (Any (All (Requester accountId1) (Requested accountId2))
             (All (Requester accountId2) (Requested accountId1)))
        (Status "Accepted") in
  Mongoose.findOne db conditions.

(** What [getRequests] hands over. *)
Record Requests : Type := mkRequests {
  sent : list Friendship;
  received : list Friendship
}.

(** [find] always answers with an array, so the bare [done()] of the last
    branch is never reached. *)
Definition getSentRequests (db : Db) (accountId : ObjectId)
  : callback (list Friendship) :=
  let conditions := All (Requester accountId) (Status "Pending") in
  match Mongoose.find db conditions with
  | Err err => Err err
  | Ok sentRequests => Ok sentRequests
  end.

Definition getReceivedRequests (db : Db) (accountId : ObjectId)
  : callback (list Friendship) :=
  let conditions := All (Requested accountId) (Status "Pending") in
  match Mongoose.find db conditions with
  | Err err => Err err
  | Ok receivedRequests => Ok receivedRequests
  end.

Definition getRequests (db : Db) (accountId : ObjectId) : callback Requests :=
  match getSentRequests db accountId with
  | Err err => Err err
  | Ok sentRequests =>
      match getReceivedRequests db accountId with
      | Err err => Err err
      | Ok receivedRequests => Ok (mkRequests sentRequests receivedRequests)
      end
  end.

End FriendshipModel.

(** * The second friendship module

    Its [getFriends], [getFriendsOfFriends], [isFriend], [isFriendOfFriends]
    and [getRelationship] are, statement for statement, the [getFriends],
    [getFriendsOfFriends], [areFriends], [areFriendsOfFriends] and
    [getRelationship] of src/lib/friendship.js.  [acceptRequest] and
    [denyRequest] differ. *)

Module FriendshipModelB.

Definition acceptRequest (returnNew : bool) (db : Db) (now : Z)
    (requesterId requestedId : ObjectId) : outcome Friendship * Db :=
  let conditions :=
    All (Requester requesterId) (All (Requested requestedId) (Status "Pending")) in
  let updates := Mongoose.mkUpdates "Accepted" now in
  match Mongoose.findOneAndUpdate returnNew db conditions updates with
  | (Err err, db') => (Thrown (Raised err), db')
  | (Ok (Some friendship), db') => (Called (Ok friendship), db')
  | (Ok None, db') => (Called (Err (ErrorString "Request does not exist!")), db')
  end.

(** No declaration of [Friendship] is in scope where [denyRequest] reads
    it. *)
Definition Friendship_binding : option unit := None.

(** The body starts with [Friendship.findOne(...)]: reading the identifier
    throws before any query is made. *)
Definition denyRequest (db : Db) (requesterId requestedId : ObjectId)
  : outcome nat * Db :=
  let conditions :=
    All (Requester requesterId) (All (Requested requestedId) (Status "Pending")) in
  match Friendship_binding with
  | None => (Thrown (ReferenceError "Friendship"), db)
  | Some _ =>
      match Mongoose.findOne db conditions with
      | Err err => (Called (Err err), db)
      | Ok (Some request) =>
          match Mongoose.remove db conditions with
          | (r, db') => (Called r, db')
          end
      | Ok None => (Called (Err (ErrorObject "Request does not exist!")), db)
      end
  end.

Definition getFriends := FriendshipModel.getFriends.
Definition getFriendsOfFriends := FriendshipModel.getFriendsOfFriends.
Definition isFriend := FriendshipModel.areFriends.
Definition isFriendOfFriends := FriendshipModel.areFriendsOfFriends.
Definition getRelationship := FriendshipModel.getRelationship.

Definition getSentRequests := FriendshipModel.getSentRequests.
Definition getReceivedRequests := FriendshipModel.getReceivedRequests.
Definition getRequests := FriendshipModel.getRequests.

End FriendshipModelB.

(** * The account plugin

    [Friendship] is the friendship model with [isFriend] and
    [isFriendOfFriends], that is [FriendshipModelB].  [model.populate]
    replaces the two references of an edge by account summaries, which are
    not modelled.  The statics the plugin takes over from the friendship
    model as they are ([denyRequest], [isFriend], [isFriendOfFriends],
    [getRelationship]) then run with the account model as [this]; they are
    not embedded. *)

Module AccountModel.

(** What [viewProfile] hands over, as far as [friendRequest] reads it. *)
Record AccountInfo : Type := mkAccountInfo {
  _id : ObjectId;
  friendRequests : bool
}.

(** No declaration of [populatedFriendship] is in scope where
    [friendRequest] reads it. *)
Definition populatedFriendship : option (option Friendship) := None.

(** [model.populate(friendship, paths, done)] reads the accounts
    collection: [done] gets the error of its driver when there is one, and
    the edge otherwise. *)
Definition populate (accounts_fault : option Error) (friendship : Friendship)
  : callback Friendship :=
  match accounts_fault with
  | Some err => Err err
  | None => Ok friendship
  end.

(** [findOne]'s [err] is dropped, and [populate] passes a missing edge
    through; the accounts collection is taken to answer. *)
Definition getFriendship (db : Db) (accountId1 accountId2 : ObjectId)
  : callback (option Friendship) :=
  let conditions :=
    All (Any (All (Requester accountId1) (Requested accountId2))
             (All (Requester accountId2) (Requested accountId1)))
        (Status "Accepted") in
  match Mongoose.findOne db conditions with
  | Err _ => Ok None
  | Ok friendship => Ok friendship
  end.

Section WithViewProfile.

(** [viewProfile] is not among the sources: it resolves the e-mail
    address to an account and says what the requester may do. *)
Variable viewProfile : ObjectId -> string -> callback (option AccountInfo).

Definition friendRequest (db : Db) (now : Z) (requesterId : ObjectId)
    (requestedEmail : string) : outcome (option Friendship) * Db :=
  match viewProfile requesterId requestedEmail with
  | Err err => (Called (Err err), db)
  | Ok None => (Called (Ok None), db)
  | Ok (Some requestedAccountInfo) =>
      match getFriendship db requesterId (_id requestedAccountInfo) with
      | Err err => (Called (Err err), db)
      | Ok (Some friendship) =>
          let err :=
            if String.eqb (status friendship) "Pending"
            then ErrorString "A pending request already exists"
            else ErrorString "Cannot request friendship of friends" in
          match populatedFriendship with
          | None => (Thrown (ReferenceError "populatedFriendship"), db)
          | Some _ => (Called (Err err), db)
          end
      | Ok None =>
          if negb (friendRequests requestedAccountInfo) then
            (Called (Err (ErrorObject
               "You are not allowed to send this user a friend request.")), db)
          else
            match Mongoose.save db
                    (Mongoose.create now requesterId (_id requestedAccountInfo)) with
            | (Err err, db') => (Called (Err err), db')
            | (Ok request, db') => (Called (Ok (Some request)), db')
            end
      end
  end.

End WithViewProfile.

(** The callback throws whatever [err] it is given, and hands an edge on
    to [populate], which calls [done].  Its last branch, for a call with
    neither [err] nor an edge, is never taken: the model's [acceptRequest]
    makes no such call. *)
Definition acceptRequest (returnNew : bool) (accounts_fault : option Error)
    (db : Db) (now : Z) (requesterId requestedId : ObjectId)
  : outcome Friendship * Db :=
  match FriendshipModelB.acceptRequest returnNew db now requestedId requesterId with
  | (Thrown x, db') => (Thrown x, db')
  | (Called (Err err), db') => (Thrown (Raised err), db')
  | (Called (Ok friendship), db') => (Called (populate accounts_fault friendship), db')
  end.

End AccountModel.

(** * The privacy policy *)

Module Privacy.

(** The four fields [AccountSchema.add] declares with [settingDef]. *)
Record PrivacySettings : Type := mkPrivacy {
  profile : Z;
  search : Z;
  chatRequests : Z;
  friendRequests : Z
}.

Record Account : Type := mkAccount {
  _id : ObjectId;
  email : string;
  privacy : PrivacySettings
}.

Section Policy.

(** [privacy.values.ANYBODY] and [privacy.values.NOBODY], the two ends
    of the scale in [settingDef]; the privacy module is not among the
    sources. *)
Variables ANYBODY NOBODY : Z.

(** [settingDef]'s [min] and [max]. *)
Definition valid_setting (v : Z) : bool := Z.leb ANYBODY v && Z.leb v NOBODY.

(** Modelled from the spec: [canReceiveFriendRequest], the policy
    function that is not among the sources; true unless the
    friend-request dimension is set to fully-closed. *)
Definition canReceiveFriendRequest (settings : PrivacySettings) : bool :=
  negb (Z.eqb (friendRequests settings) NOBODY).

(** Modelled from the spec: [viewProfile], which is not among the
    sources; it resolves the handle through the identity store, answers
    with nothing when there is no such identity, and otherwise with the
    identity and what the policy says about friend requests. *)
Definition viewProfile (accounts : list Account) (requesterId : ObjectId)
    (requestedEmail : string) : callback (option AccountModel.AccountInfo) :=
  match List.find (fun acc => String.eqb (email acc) requestedEmail) accounts with
  | None => Ok None
  | Some acc =>
      Ok (Some (AccountModel.mkAccountInfo (_id acc)
                  (canReceiveFriendRequest (privacy acc))))
  end.

(** [sendRequest] of the spec: the plugin's [friendRequest] over this
    identity store. *)
Definition sendRequest (accounts : list Account) :=
  AccountModel.friendRequest (viewProfile accounts).

End Policy.

End Privacy.

(** * The plugin's queries for accounts

    [getFriends] and [getFriendsOfFriends] of the plugin turn the ids the
    friendship model answers with into account documents, with one
    [model.find({ _id: { $in: ids } })] on the accounts collection. *)

Module AccountQueries.

(** The accounts collection, with the error the driver currently answers
    with, if any. *)
Record Accounts : Type := mkAccounts {
  accounts : list Privacy.Account;
  accounts_fault : option Error
}.

(** [model.find({ '_id': { '$in': ids } }, done)]. *)
Definition find_in (acs : Accounts) (ids : list ObjectId)
  : callback (list Privacy.Account) :=
  match accounts_fault acs with
  | Some e => Err e
  | None =>
      Ok (filter (fun acc => existsb (equals (Privacy._id acc)) ids) (accounts acs))
  end.

Definition getFriends (acs : Accounts) (db : Db) (accountId : ObjectId)
  : callback (list Privacy.Account) :=
  match FriendshipModelB.getFriends db accountId with
  | Err err => Err err
  | Ok friendIds => find_in acs friendIds
  end.

(** The callback given to [Friendship.getFriendsOfFriends] runs once for
    each call the model makes. *)
Definition getFriendsOfFriends (same_object : ObjectId -> ObjectId -> bool)
    (acs : Accounts) (db : Db) (accountId : ObjectId)
  : list (callback (list Privacy.Account)) :=
  map (fun r : callback (list ObjectId) =>
         match r with
         | Err err => Err err
         | Ok friendIdsOfFriends => find_in acs friendIdsOfFriends
         end)
      (FriendshipModelB.getFriendsOfFriends same_object db accountId).

End AccountQueries.

(** * Vocabulary of the properties *)

(** What a callback invocation delivers, read as a set of ids. *)
Definition in_result (x : ObjectId) (r : callback (list ObjectId)) : Prop :=
  match r with
  | Ok l => In x l
  | Err _ => False
  end.

(** An Accepted edge joins [a] and [b], whoever asked. *)
Definition accepted_edge (ds : list Friendship) (a b : ObjectId) : Prop :=
  exists f, In f ds /\ status f = "Accepted"%string /\
    ((requester f = a /\ requested f = b) \/ (requester f = b /\ requested f = a)).

(** The ids [getFriends] answers with on a store that answers. *)
Definition friendIds (ds : list Friendship) (accountId : ObjectId) : list ObjectId :=
  map (FriendshipModel.friendId_of accountId)
      (filter (matches (All (Any (Requester accountId) (Requested accountId))
                            (Status "Accepted"))) ds).

(** The conditions [acceptRequest] and [denyRequest] search with. *)
Definition pending_request (requesterId requestedId : ObjectId) : Conditions :=
  All (Requester requesterId) (All (Requested requestedId) (Status "Pending")).

(** The conditions both [getFriendship] search with. *)
Definition accepted_between (a b : ObjectId) : Conditions :=
  All (Any (All (Requester a) (Requested b)) (All (Requester b) (Requested a)))
      (Status "Accepted").

(** No Accepted edge is found between [a] and [b], and [a] can send [b] a
    request that is stored as Pending. *)
Definition absent_and_requestable
    (viewProfile : ObjectId -> string -> callback (option AccountModel.AccountInfo))
    (db : Db) (later : Z) (a : ObjectId) (email : string) (b : ObjectId) : Prop :=
  AccountModel.getFriendship db a b = Ok None /\
  FriendshipModel.getFriendship db a b = Ok None /\
  exists request' db',
    AccountModel.friendRequest viewProfile db later a email
      = (Called (Ok (Some request')), db') /\
    status request' = "Pending"%string /\
    requested request' = b /\
    In request' (docs db').

Definition is_string (v : jsval) : Prop :=
  match v with JString _ => True | JObjectId _ => False end.

(** The errors among the answers, in the order they arrive. *)
Fixpoint errors_of {A : Type} (rs : list (callback A)) : list Error :=
  match rs with
  | [] => []
  | Err e :: rest => e :: errors_of rest
  | Ok _ :: rest => errors_of rest
  end.

Fixpoint count_ok {A : Type} (rs : list (callback A)) : nat :=
  match rs with
  | [] => 0
  | Err _ :: rest => count_ok rest
  | Ok _ :: rest => S (count_ok rest)
  end.

Definition not_self (accountId x : ObjectId) : bool := negb (equals accountId x).

(** The error of the privacy gate in [friendRequest]. *)
Definition not_allowed : Error :=
  ErrorObject "You are not allowed to send this user a friend request.".

(** The answer of [acceptRequest] and [denyRequest] when no request is
    found. *)
Definition request_does_not_exist : string := "Request does not exist!".

(** ** The states the engine can reach *)

(** An edge as the schema defaults and [acceptRequest] leave it: Pending
    without a date of acceptance, or Accepted with one. *)
Definition well_formed (f : Friendship) : Prop :=
  (status f = "Pending"%string /\ dateAccepted f = None) \/
  (status f = "Accepted"%string /\ exists t, dateAccepted f = Some t).

(** What [acceptRequest] turns a request into. *)
Definition accepted_at (now : Z) (f : Friendship) : Friendship :=
  mkFriendship (requester f) (requested f) "Accepted" (dateSent f) (Some now).

(** One operation on the friendships collection, by any caller, or a
    change in what the driver answers. *)
Inductive step (db db' : Db) : Prop :=
| step_friendRequest
    (viewProfile : ObjectId -> string -> callback (option AccountModel.AccountInfo))
    (now : Z) (a : ObjectId) (email : string) (out : outcome (option Friendship)) :
    AccountModel.friendRequest viewProfile db now a email = (out, db') -> step db db'
| step_acceptRequest (returnNew : bool) (now : Z) (a b : ObjectId)
    (r : callback Friendship) :
    FriendshipModel.acceptRequest returnNew db now a b = (r, db') -> step db db'
| step_acceptRequestB (returnNew : bool) (now : Z) (a b : ObjectId)
    (r : outcome Friendship) :
    FriendshipModelB.acceptRequest returnNew db now a b = (r, db') -> step db db'
| step_acceptRequest_plugin (returnNew : bool) (accounts_fault : option Error)
    (now : Z) (a b : ObjectId) (r : outcome Friendship) :
    AccountModel.acceptRequest returnNew accounts_fault db now a b = (r, db') ->
    step db db'
| step_denyRequest (a b : ObjectId) (r : callback Friendship) :
    FriendshipModel.denyRequest db a b = (r, db') -> step db db'
| step_denyRequestB (a b : ObjectId) (r : outcome nat) :
    FriendshipModelB.denyRequest db a b = (r, db') -> step db db'
| step_driver : docs db' = docs db -> step db db'.

Inductive reachable : Db -> Prop :=
| reachable_empty : reachable (healthy [])
| reachable_step (db db' : Db) : reachable db -> step db db' -> reachable db'.

(** The shapes a change of the collection can take. *)
Definition change (ds ds' : list Friendship) : Prop :=
  ds' = ds \/
  (exists r, status r = "Pending"%string /\ dateAccepted r = None /\ ds' = ds ++ [r]) \/
  (exists before f after now,
     status f = "Pending"%string /\ ds = before ++ f :: after /\
     ds' = before ++ accepted_at now f :: after) \/
  (exists before f after,
     status f = "Pending"%string /\ ds = before ++ f :: after /\ ds' = before ++ after).

(** Any number of operations, one after another. *)
Inductive steps : Db -> Db -> Prop :=
| steps_none (db : Db) : steps db db
| steps_more (db db' db'' : Db) : steps db db' -> step db' db'' -> steps db db''.

(** The collection of [db], with the driver answering. *)
Definition answering (db : Db) : Db := healthy (docs db).

(** ** Statements that are tested against the code *)

(** Neither the account nor any of its friends is among its friends of
    friends. *)
Definition excludes_self_and_friends (same_object : ObjectId -> ObjectId -> bool)
    (db : Db) (accountId : ObjectId) : Prop :=
  forall result friends,
    FriendshipModel.getFriendsOfFriends same_object db accountId = [Ok result] ->
    FriendshipModel.getFriends db accountId = Ok friends ->
    ~ In accountId result /\ (forall x, In x friends -> ~ In x result).

(** The call reports the first error and nothing else. *)
Definition reports_first_error_only
    (calls : list (callback (list ObjectId)))
    (completions : list (callback (list ObjectId))) : Prop :=
  forall e es, errors_of completions = e :: es -> calls = [Err e].

(** [f] is a Pending or Accepted edge between [a] and [b], in either
    direction. *)
Definition relates (a b : ObjectId) (f : Friendship) : bool :=
  ((equals a (requester f) && equals b (requested f))
   || (equals b (requester f) && equals a (requested f)))
  && (String.eqb (status f) "Pending" || String.eqb (status f) "Accepted").

(** A request is refused as not allowed exactly when the requested
    account's friend-request setting is [NOBODY]. *)
Definition refused_iff_closed (NOBODY : Z) (accounts : list Privacy.Account)
    (db : Db) (now : Z) (requesterId : ObjectId) (acc : Privacy.Account) : Prop :=
  Privacy.sendRequest NOBODY accounts db now requesterId (Privacy.email acc)
    = (Called (Err not_allowed), db)
  <-> Privacy.friendRequests (Privacy.privacy acc) = NOBODY.

(** ** Sample accounts and stores *)

Module Sample.

Definition alice : ObjectId := OID "5f1d7f3e9c1a4b0012a00001".
Definition bob : ObjectId := OID "5f1d7f3e9c1a4b0012a00002".
Definition carol : ObjectId := OID "5f1d7f3e9c1a4b0012a00003".
Definition dave : ObjectId := OID "5f1d7f3e9c1a4b0012a00004".

Definition accepted (x y : ObjectId) : Friendship :=
  mkFriendship x y "Accepted" 1000 (Some 2000%Z).

(** alice - bob - dave and alice - carol - dave. *)
Definition diamond : Db :=
  healthy [accepted alice bob; accepted alice carol;
           accepted bob dave; accepted carol dave].

(** alice - bob - carol, and alice - carol. *)
Definition triangle : Db :=
  healthy [accepted alice bob; accepted bob carol; accepted alice carol].

(** An identity store that knows alice and bob, who both take friend
    requests. *)
Definition directory (requesterId : ObjectId) (requestedEmail : string)
  : callback (option AccountModel.AccountInfo) :=
  if String.eqb requestedEmail "bob@example.org"
  then Ok (Some (AccountModel.mkAccountInfo bob true))
  else if String.eqb requestedEmail "alice@example.org"
  then Ok (Some (AccountModel.mkAccountInfo alice true))
  else Ok None.

(** bob with every setting at the open end of a scale from 0 to 3. *)
Definition bob_open : Privacy.Account :=
  Privacy.mkAccount bob "bob@example.org" (Privacy.mkPrivacy 0 0 0 0).

(** bob with every setting at the closed end of a scale from 0 to 3. *)
Definition bob_closed : Privacy.Account :=
  Privacy.mkAccount bob "bob@example.org" (Privacy.mkPrivacy 3 3 3 3).

(** dave, as the accounts collection holds him. *)
Definition dave_open : Privacy.Account :=
  Privacy.mkAccount dave "dave@example.org" (Privacy.mkPrivacy 0 0 0 0).

End Sample.

(** * Properties *)

Section Basics.

Lemma equals_eq (a b : ObjectId) : equals a b = true <-> a = b.
Proof.
  unfold equals. rewrite String.eqb_eq.
  destruct a as [x], b as [y]; simpl. split; congruence.
Qed.

Lemma equals_refl (a : ObjectId) : equals a a = true.
Proof. now apply equals_eq. Qed.

Lemma equals_neq (a b : ObjectId) : equals a b = false <-> a <> b.
Proof.
  rewrite <- equals_eq. destruct (equals a b); split; congruence.
Qed.

Lemma equals_sym (a b : ObjectId) : equals a b = equals b a.
Proof. unfold equals. apply String.eqb_sym. Qed.

End Basics.

Module FriendshipFacts.
Import FriendshipModel.

Lemma accepted_edge_sym ds a b : accepted_edge ds a b -> accepted_edge ds b a.
Proof.
  intros (f & Hin & Hst & H). exists f. repeat split; trivial. tauto.
Qed.

Lemma getFriends_healthy ds a : getFriends (healthy ds) a = Ok (friendIds ds a).
Proof. reflexivity. Qed.

Lemma getFriends_cases db a :
  (exists e, fault db = Some e /\ getFriends db a = Err e) \/
  (fault db = None /\ getFriends db a = Ok (friendIds (docs db) a)).
Proof.
  unfold getFriends, Mongoose.find, friendIds.
  destruct (fault db) as [e|]; [left; eauto | right; auto].
Qed.

Lemma In_friendIds ds a b : In b (friendIds ds a) <-> accepted_edge ds a b.
Proof.
  unfold friendIds, accepted_edge. rewrite in_map_iff. split.
  - intros (f & Hb & Hf). apply filter_In in Hf. destruct Hf as [Hin Hm].
    simpl in Hm. apply andb_true_iff in Hm. destruct Hm as [Hside Hst].
    apply String.eqb_eq in Hst. exists f. repeat split; auto.
    unfold friendId_of in Hb.
    destruct (equals a (requester f)) eqn:E.
    + apply equals_eq in E. left. split; congruence.
    + simpl in Hside. apply equals_eq in Hside. right. split; congruence.
  - intros (f & Hin & Hst & H). exists f. split.
    + unfold friendId_of. destruct (equals a (requester f)) eqn:E.
      * apply equals_eq in E. destruct H as [[? ?]|[? ?]]; congruence.
      * apply equals_neq in E. destruct H as [[? ?]|[? ?]]; congruence.
    + apply filter_In. split; trivial. simpl.
      rewrite Hst. simpl. rewrite andb_true_r.
      apply orb_true_iff.
      destruct H as [[? ?]|[? ?]]; [left | right]; apply equals_eq; congruence.
Qed.

Lemma in_result_getFriends db a b :
  in_result b (getFriends db a) <-> fault db = None /\ accepted_edge (docs db) a b.
Proof.
  destruct (getFriends_cases db a) as [(e & Hf & ->)|[Hf ->]]; simpl.
  - split; [tauto | intros [? _]; congruence].
  - rewrite In_friendIds. tauto.
Qed.

(** The two loops are searches. *)
Lemma areFriends_loop_true b l : areFriends_loop b true l = true.
Proof. destruct l; reflexivity. Qed.

Lemma areFriends_loop_spec b l : areFriends_loop b false l = true <-> In b l.
Proof.
  induction l as [|x l IH]; simpl.
  - split; [discriminate | tauto].
  - destruct (equals b x) eqn:E.
    + rewrite areFriends_loop_true. apply equals_eq in E. split; auto.
    + rewrite IH. apply equals_neq in E. split; [auto | intros [?|?]; congruence].
Qed.

Lemma inner_loop_true x l : inner_loop x true l = true.
Proof. destruct l; reflexivity. Qed.

Lemma inner_loop_spec x l : inner_loop x false l = true <-> In x l.
Proof.
  induction l as [|y l IH]; simpl.
  - split; [discriminate | tauto].
  - destruct (equals x y) eqn:E.
    + rewrite inner_loop_true. apply equals_eq in E. split; auto.
    + rewrite IH. apply equals_neq in E. split; [auto | intros [?|?]; congruence].
Qed.

Lemma outer_loop_true l1 l2 : outer_loop true l1 l2 = true.
Proof. destruct l1; reflexivity. Qed.

Lemma outer_loop_spec l1 l2 :
  outer_loop false l1 l2 = true <-> exists m, In m l1 /\ In m l2.
Proof.
  induction l1 as [|x l1 IH]; simpl.
  - split; [discriminate | intros (m & [] & _)].
  - destruct (inner_loop x false l2) eqn:E.
    + rewrite outer_loop_true. apply inner_loop_spec in E.
      split; trivial. intros _. exists x. auto.
    + rewrite IH. split.
      * intros (m & H1 & H2). exists m. auto.
      * intros (m & [->|H1] & H2).
        -- apply inner_loop_spec in H2. congruence.
        -- exists m. auto.
Qed.

Lemma areFriends_healthy ds a b :
  exists answer, areFriends (healthy ds) a b = Ok answer /\
                 (answer = true <-> In b (friendIds ds a)).
Proof.
  unfold areFriends. rewrite getFriends_healthy.
  destruct (friendIds ds a) as [|x l] eqn:E.
  - exists false. simpl. split; trivial. split; [discriminate | tauto].
  - eexists. split; [reflexivity|]. cbn [List.length Nat.eqb].
    apply areFriends_loop_spec.
Qed.

Lemma areFriendsOfFriends_healthy ds a b :
  exists answer, areFriendsOfFriends (healthy ds) a b = Ok answer /\
    (answer = true <-> exists m, In m (friendIds ds a) /\ In m (friendIds ds b)).
Proof.
  unfold areFriendsOfFriends. rewrite !getFriends_healthy.
  destruct (friendIds ds a) as [|x l].
  - exists false. simpl. split; trivial.
    split; [discriminate | intros (m & [] & _)].
  - cbn [List.length Nat.ltb Nat.leb].
    destruct (friendIds ds b) as [|y l'].
    + exists false. simpl. split; trivial.
      split; [discriminate | intros (m & _ & [])].
    + cbn [List.length Nat.ltb Nat.leb]. eexists. split; [reflexivity|].
      apply outer_loop_spec.
Qed.

End FriendshipFacts.

(** ** The fan-out of [getFriendsOfFriends] *)

Module FanOut.
Import FriendshipModel FriendshipFacts.

Section WithIdentity.
Variable same_object : ObjectId -> ObjectId -> bool.

Lemma indexOf_from_strings i l x :
  Forall is_string l -> indexOf_from same_object i l (JObjectId x) = (-1)%Z.
Proof.
  intros H. revert i. induction H as [|y l Hy _ IH]; intros i; simpl; trivial.
  destruct y; [destruct Hy | simpl; apply IH].
Qed.

(** [idsFound] only ever receives strings, so it never holds the id
    that is looked up in it. *)
Lemma visit_strings a L st x :
  Forall is_string (idsFound st) ->
  visit same_object a L st x =
    (if not_self a x
     then mkClosure (friendsOfFriendsIds st ++ [x]) (totalResults st)
                    (idsFound st ++ [JString (array_toString L)])
     else st).
Proof.
  intros H. unfold visit, indexOf, not_self.
  rewrite indexOf_from_strings by assumption. reflexivity.
Qed.

Lemma fold_visit a L l : forall st,
  Forall is_string (idsFound st) ->
  let st' := fold_left (visit same_object a L) l st in
  friendsOfFriendsIds st' = friendsOfFriendsIds st ++ filter (not_self a) l
  /\ totalResults st' = totalResults st
  /\ Forall is_string (idsFound st').
Proof.
  induction l as [|x l IH]; intros st H; simpl.
  - rewrite app_nil_r. auto.
  - rewrite visit_strings by assumption.
    destruct (not_self a x) eqn:E.
    + match goal with |- context [fold_left _ l ?s] => specialize (IH s) end.
      simpl in IH. destruct IH as (H1 & H2 & H3).
      { apply Forall_app. split; trivial. constructor; simpl; trivial. }
      rewrite H1, <- app_assoc. auto.
    + apply IH. assumption.
Qed.

Lemma fold_visit_total a L l : forall st,
  totalResults (fold_left (visit same_object a L) l st) = totalResults st.
Proof.
  induction l as [|x l IH]; intros st; simpl; trivial.
  rewrite IH. unfold visit. destruct (_ && _); reflexivity.
Qed.

Lemma deliver_cons a F st r rs :
  deliver same_object a F st (r :: rs) =
    snd (on_friends_of_friend same_object a F st r)
    ++ deliver same_object a F (fst (on_friends_of_friend same_object a F st r)) rs.
Proof.
  cbn [deliver]. destruct (on_friends_of_friend same_object a F st r). reflexivity.
Qed.

Lemma on_ok a F st l :
  on_friends_of_friend same_object a F st (Ok l) =
    let st1 := fold_left (visit same_object a l) l st in
    (mkClosure (friendsOfFriendsIds st1) (S (totalResults st)) (idsFound st1),
     if Nat.eqb (S (totalResults st)) (List.length F)
     then [Ok (friendsOfFriendsIds st1)] else []).
Proof.
  unfold on_friends_of_friend. cbn [totalResults friendsOfFriendsIds].
  rewrite fold_visit_total. reflexivity.
Qed.

(** As long as fewer than [length friendIds] sub-queries have answered
    well, only errors are handed to [done]. *)
Lemma deliver_errors a F : forall rs st,
  totalResults st + count_ok rs < List.length F ->
  deliver same_object a F st rs = map Err (errors_of rs).
Proof.
  induction rs as [|r rs IH]; intros st H; [reflexivity|].
  rewrite deliver_cons. destruct r as [e|l].
  - cbn [on_friends_of_friend fst snd errors_of map app count_ok] in *.
    f_equal. apply IH. assumption.
  - rewrite on_ok. cbn [fst snd errors_of count_ok] in *.
    replace (Nat.eqb (S (totalResults st)) (List.length F)) with false
      by (symmetry; apply Nat.eqb_neq; lia).
    cbn [app]. apply IH. cbn [totalResults]. lia.
Qed.

Lemma count_ok_le {A} (rs : list (callback A)) : count_ok rs <= List.length rs.
Proof. induction rs as [|[e|v] rs IH]; simpl; lia. Qed.

Lemma count_ok_err {A} (rs : list (callback A)) e :
  In (Err e) rs -> count_ok rs < List.length rs.
Proof.
  induction rs as [|[e'|v] rs IH]; simpl; intros H.
  - destruct H.
  - pose proof (count_ok_le rs). lia.
  - destruct H as [H|H]; [discriminate | apply IH in H; lia].
Qed.

Lemma errors_of_In {A} (rs : list (callback A)) e :
  In (Err e) rs <-> In e (errors_of rs).
Proof.
  induction rs as [|[e'|v] rs IH]; simpl.
  - tauto.
  - rewrite <- IH. split; intros [H|H]; auto; left; congruence.
  - rewrite <- IH. split; [intros [H|H]; [discriminate | trivial] | auto].
Qed.

(** When every sub-query answers well, the last answer hands over
    everything that was collected. *)
Lemma deliver_all_ok a F : forall ls st,
  ls <> [] ->
  Forall is_string (idsFound st) ->
  totalResults st + List.length ls = List.length F ->
  deliver same_object a F st (map Ok ls) =
    [Ok (friendsOfFriendsIds st ++ filter (not_self a) (List.concat ls))].
Proof.
  induction ls as [|l ls IH]; intros st Hne Hs Hn; [congruence|].
  cbn [map]. rewrite deliver_cons, on_ok. cbn [fst snd].
  destruct (fold_visit a l l st Hs) as (H1 & H2 & H3).
  cbn [List.length] in Hn.
  destruct ls as [|l' ls].
  - replace (Nat.eqb (S (totalResults st)) (List.length F)) with true
      by (symmetry; apply Nat.eqb_eq; cbn [List.length] in Hn; lia).
    cbn [map deliver List.concat]. rewrite H1, !app_nil_r. reflexivity.
  - replace (Nat.eqb (S (totalResults st)) (List.length F)) with false
      by (symmetry; apply Nat.eqb_neq; cbn [List.length] in Hn; lia).
    cbn [app].
    rewrite IH; [| discriminate | exact H3 | cbn [totalResults List.length] in *; lia].
    cbn [friendsOfFriendsIds]. rewrite H1.
    change (List.concat (l :: l' :: ls)) with (l ++ List.concat (l' :: ls)).
    rewrite filter_app, app_assoc. reflexivity.
Qed.

(** On one store that answers, [getFriendsOfFriends] calls [done] once,
    with every friend of a friend other than the account itself, as
    often as it is listed. *)
Lemma getFriendsOfFriends_healthy ds a :
  getFriendsOfFriends same_object (healthy ds) a =
    [Ok (filter (not_self a) (List.concat (map (friendIds ds) (friendIds ds a))))].
Proof.
  unfold getFriendsOfFriends. rewrite getFriends_healthy.
  unfold getFriendsOfFriends_on.
  destruct (friendIds ds a) as [|f F] eqn:E; [reflexivity|].
  cbn [List.length Nat.eqb].
  replace (map (getFriends (healthy ds)) (f :: F))
    with (map (@Ok (list ObjectId)) (map (friendIds ds) (f :: F)))
    by (rewrite map_map; reflexivity).
  rewrite deliver_all_ok; [reflexivity | discriminate | constructor |].
  simpl. rewrite !length_map. reflexivity.
Qed.

End WithIdentity.

End FanOut.


(** * Friend sets, classification and the failing fan-out *)

Module FriendSets.
Import FriendshipModel FriendshipFacts FanOut.

(** C9. Membership in the derived friend sets is symmetric: [b] is among
    [getFriends(a)] exactly when [a] is among [getFriends(b)], in every
    state of the store, whichever side sent the request. *)
Theorem getFriends_symmetric (db : Db) (a b : ObjectId) :
  in_result b (getFriends db a) <-> in_result a (getFriends db b).
Proof.
  rewrite !in_result_getFriends.
  split; intros [Hf He]; split; auto using accepted_edge_sym.
Qed.

(** C6. [getRelationship(a, b)] answers FRIENDS exactly when [b] is among
    the friends of [a]; failing that, FRIENDS_OF_FRIENDS exactly when the
    two friend lists share an id; failing that, NOT_FRIENDS.  It always
    answers one of the three, and FRIENDS wins over a mutual friend. *)
Theorem getRelationship_classifies (ds : list Friendship) (a b : ObjectId) :
  exists Fa Fb r,
    getFriends (healthy ds) a = Ok Fa /\
    getFriends (healthy ds) b = Ok Fb /\
    getRelationship (healthy ds) a b = Ok r /\
    (r = FRIENDS <-> In b Fa) /\
    (r = FRIENDS_OF_FRIENDS <->
       ~ In b Fa /\ exists m, In m Fa /\ In m Fb) /\
    (r = NOT_FRIENDS <->
       ~ In b Fa /\ ~ exists m, In m Fa /\ In m Fb).
Proof.
  exists (friendIds ds a), (friendIds ds b).
  unfold getRelationship.
  destruct (areFriends_healthy ds a b) as (direct & -> & Hd).
  destruct (areFriendsOfFriends_healthy ds a b) as (mutual & -> & Hm).
  destruct direct.
  - exists FRIENDS. repeat split; try reflexivity; try tauto;
      try discriminate; intros [Hn _]; exfalso; apply Hn; tauto.
  - assert (Hnd : ~ In b (friendIds ds a)) by (rewrite <- Hd; discriminate).
    destruct mutual.
    + exists FRIENDS_OF_FRIENDS.
      repeat split; try reflexivity; try tauto; try discriminate.
    + assert (Hnm : ~ exists m, In m (friendIds ds a) /\ In m (friendIds ds b))
        by (rewrite <- Hm; discriminate).
      exists NOT_FRIENDS.
      repeat split; try reflexivity; try tauto; try discriminate.
Qed.

(** C10. For an account with at least one friend, the mutual-friend
    predicate applied to the account and itself answers true, as
    [areFriendsOfFriends] and as [isFriendOfFriends]: nothing guards
    against the self-query. *)
Theorem mutual_friend_predicate_on_self (db : Db) (a f : ObjectId) :
  in_result f (getFriends db a) ->
  areFriendsOfFriends db a a = Ok true /\
  FriendshipModelB.isFriendOfFriends db a a = Ok true.
Proof.
  intros H. apply in_result_getFriends in H. destruct H as [Hf He].
  apply In_friendIds in He.
  assert (Hgoal : areFriendsOfFriends db a a = Ok true).
  { destruct db as [ds flt]. simpl in Hf, He. subst flt.
    change (mkDb ds None) with (healthy ds).
    destruct (areFriendsOfFriends_healthy ds a a) as (answer & -> & Ha).
    f_equal. apply Ha. exists f. auto. }
  repeat split; exact Hgoal.
Qed.

(** The friend sets of the diamond store show C10 at work: alice has
    friends, and is her own friend of friends. *)
Lemma mutual_friend_predicate_on_self_witness :
  in_result Sample.bob (getFriends Sample.diamond Sample.alice) /\
  areFriendsOfFriends Sample.diamond Sample.alice Sample.alice = Ok true.
Proof.
  split.
  - simpl. left. reflexivity.
  - apply (mutual_friend_predicate_on_self Sample.diamond Sample.alice Sample.bob).
    simpl. left. reflexivity.
Defined.

(** C8 as stated fails when two sub-queries fail: the first error does
    not win alone, [done] is called with the second error as well. *)
Lemma second_error_is_reported_too :
  ~ reports_first_error_only
      (getFriendsOfFriends_on equals Sample.alice (Ok [Sample.bob; Sample.carol])
         [Err (DriverError 7); Err (DriverError 8)])
      [Err (DriverError 7); Err (DriverError 8)].
Proof.
  intros H. specialize (H (DriverError 7) [DriverError 8] eq_refl).
  discriminate H.
Qed.

(** C8, amended.  While sub-queries are still outstanding, and as soon as
    one of them has failed, [done] is never handed a list: with a failed
    sub-query the calls of [done] are the errors alone, one call for each
    failed sub-query, the first error first.  A list is handed over only
    once every sub-query has answered, and only when all of them answered
    well. *)
Theorem getFriendsOfFriends_fails_with_first_error
    (same_object : ObjectId -> ObjectId -> bool) (accountId : ObjectId)
    (friendIds : list ObjectId) (completions : list (callback (list ObjectId))) :
  List.length completions <= List.length friendIds ->
  let calls :=
    getFriendsOfFriends_on same_object accountId (Ok friendIds) completions in
  (List.length completions < List.length friendIds ->
     forall l, ~ In (Ok l) calls) /\
  (forall e, In (Err e) completions ->
     (forall l, ~ In (Ok l) calls) /\
     exists e1 es, errors_of completions = e1 :: es /\
                   calls = Err e1 :: map Err es) /\
  (forall ls, completions = map Ok ls ->
     List.length ls = List.length friendIds ->
     exists l, calls = [Ok l]).
Proof.
  intros Hlen calls.
  assert (Hno : forall rs : list (callback (list ObjectId)),
             ~ exists l : list ObjectId,
               In (Ok l) (map (@Err (list ObjectId)) (errors_of rs))).
  { intros rs (l & Hl). apply in_map_iff in Hl.
    destruct Hl as (x & Hx & _). discriminate. }
  assert (Hcalls : count_ok completions < List.length friendIds ->
                   calls = map Err (errors_of completions)).
  { intros Hc. unfold calls, getFriendsOfFriends_on.
    destruct friendIds as [|f F]; [inversion Hc|].
    cbn [List.length Nat.eqb]. apply deliver_errors. simpl. exact Hc. }
  split; [|split].
  - intros Hlt l Hl. rewrite Hcalls in Hl.
    + apply (Hno completions). eauto.
    + pose proof (count_ok_le completions). lia.
  - intros e He.
    assert (Hc : count_ok completions < List.length friendIds).
    { pose proof (count_ok_err completions e He). lia. }
    rewrite (Hcalls Hc). split.
    + intros l Hl. apply (Hno completions). eauto.
    + apply errors_of_In in He.
      destruct (errors_of completions) as [|e1 es]; [destruct He|].
      exists e1, es. auto.
  - intros ls -> Hls. unfold calls, getFriendsOfFriends_on.
    destruct friendIds as [|f F].
    + simpl. eauto.
    + cbn [List.length Nat.eqb].
      rewrite deliver_all_ok; [eauto | | apply Forall_nil | exact Hls].
      destruct ls; discriminate.
Qed.

(** Two friends, the first sub-query fails and the second answers: the
    error alone reaches [done]. *)
Lemma getFriendsOfFriends_fails_with_first_error_witness :
  List.length [Err (DriverError 7); Ok [Sample.dave]]
    <= List.length [Sample.bob; Sample.carol] /\
  getFriendsOfFriends_on equals Sample.alice (Ok [Sample.bob; Sample.carol])
    [Err (DriverError 7); Ok [Sample.dave]] = [Err (DriverError 7)].
Proof.
  split; [simpl; lia|].
  destruct (getFriendsOfFriends_fails_with_first_error equals Sample.alice
              [Sample.bob; Sample.carol] [Err (DriverError 7); Ok [Sample.dave]])
    as (_ & H & _); [simpl; lia|].
  destruct (H (DriverError 7)) as (_ & e1 & es & He & Hc); [simpl; auto|].
  simpl in He. injection He as <- <-. exact Hc.
Defined.

End FriendSets.

(** * The two-hop traversal *)

Module TwoHops.
Import FriendshipModel FriendshipFacts FanOut.

Lemma not_self_true (a x : ObjectId) : not_self a x = true <-> x <> a.
Proof.
  unfold not_self. rewrite negb_true_iff, equals_neq. split; congruence.
Qed.

(** In whatever order the sub-queries answer, the list handed to [done]
    holds the same ids: those of the friends of friends other than the
    account itself, once per listing. *)
Lemma getFriendsOfFriends_any_order
    (same_object : ObjectId -> ObjectId -> bool)
    (ds : list Friendship) (a : ObjectId) (order : list ObjectId) :
  Permutation order (friendIds ds a) ->
  exists result,
    getFriendsOfFriends_on same_object a (getFriends (healthy ds) a)
        (map (getFriends (healthy ds)) order) = [Ok result] /\
    forall x, In x result <->
      x <> a /\ exists f, In f (friendIds ds a) /\ In x (friendIds ds f).
Proof.
  intros Hperm. rewrite getFriends_healthy. unfold getFriendsOfFriends_on.
  destruct (friendIds ds a) as [|f F] eqn:E.
  - apply Permutation_sym, Permutation_nil in Hperm. subst order.
    exists []. split; [reflexivity|].
    intros x. split; [intros [] | intros [_ (g & [] & _)]].
  - cbn [List.length Nat.eqb].
    replace (map (getFriends (healthy ds)) order)
      with (map (@Ok (list ObjectId)) (map (friendIds ds) order))
      by (rewrite map_map; reflexivity).
    rewrite deliver_all_ok.
    + eexists. split; [reflexivity|]. cbn [friendsOfFriendsIds closure0 app].
      intros x. rewrite filter_In, not_self_true, in_concat. split.
      * intros [(l & Hl & Hxl) Hne]. apply in_map_iff in Hl.
        destruct Hl as (g & <- & Hg). split; trivial. exists g. split; trivial.
        apply (Permutation_in _ Hperm). exact Hg.
      * intros [Hne (g & Hg & Hxg)]. split; trivial.
        exists (friendIds ds g). split; trivial. apply in_map.
        apply (Permutation_in _ (Permutation_sym Hperm)). exact Hg.
    + intros Hnil. apply map_eq_nil in Hnil. subst order.
      apply Permutation_nil in Hperm. discriminate.
    + apply Forall_nil.
    + cbn [totalResults closure0]. rewrite length_map.
      apply (Permutation_length Hperm).
Qed.

(** C1, at the store where it breaks.  alice is friends with bob and
    carol, who are both friends with dave: the list handed to [done]
    holds dave twice, whatever [===] makes of two ObjectIds. *)
Theorem getFriendsOfFriends_lists_dave_twice
    (same_object : ObjectId -> ObjectId -> bool) :
  getFriendsOfFriends same_object Sample.diamond Sample.alice
    = [Ok [Sample.dave; Sample.dave]]
  /\ ~ NoDup [Sample.dave; Sample.dave].
Proof.
  split.
  - unfold Sample.diamond. rewrite getFriendsOfFriends_healthy. reflexivity.
  - intros H. inversion H as [|x l Hin _]. apply Hin. left. reflexivity.
Qed.

(** C2 as stated fails on the triangle alice - bob - carol - alice: carol
    is a friend of alice and is listed among her friends of friends. *)
Lemma direct_friend_is_listed :
  ~ excludes_self_and_friends equals Sample.triangle Sample.alice.
Proof.
  intros H.
  destruct (H [Sample.carol; Sample.bob] [Sample.bob; Sample.carol]) as [_ Hf].
  - reflexivity.
  - reflexivity.
  - apply (Hf Sample.carol); simpl; auto.
Qed.

(** C2, amended.  The list of [getFriendsOfFriends(a)] never holds [a];
    apart from that it holds every id found among the friends of a friend
    of [a], direct friends of [a] included. *)
Theorem getFriendsOfFriends_excludes_only_self
    (same_object : ObjectId -> ObjectId -> bool)
    (ds : list Friendship) (a : ObjectId) :
  exists result,
    getFriendsOfFriends same_object (healthy ds) a = [Ok result] /\
    ~ In a result /\
    forall x, In x result <->
      x <> a /\
      exists f, in_result f (getFriends (healthy ds) a) /\
                in_result x (getFriends (healthy ds) f).
Proof.
  rewrite getFriendsOfFriends_healthy. eexists. split; [reflexivity|].
  assert (Hx : forall x,
    In x (filter (not_self a) (List.concat (map (friendIds ds) (friendIds ds a))))
    <-> x <> a /\ exists f, In f (friendIds ds a) /\ In x (friendIds ds f)).
  { intros x. rewrite filter_In, not_self_true, in_concat. split.
    - intros [(l & Hl & Hxl) Hne]. apply in_map_iff in Hl.
      destruct Hl as (f & <- & Hf). eauto.
    - intros [Hne (f & Hf & Hxf)]. split; trivial.
      exists (friendIds ds f). split; trivial. apply in_map. exact Hf. }
  split.
  - intros Ha. apply Hx in Ha. destruct Ha as [Hne _]. congruence.
  - intros x. rewrite Hx. exact (iff_refl _).
Qed.

End TwoHops.

(** * The request state machine *)

Module RequestFacts.

Lemma find_none_iff {A : Type} (p : A -> bool) (l : list A) :
  List.find p l = None <-> forall x, In x l -> p x = false.
Proof.
  split.
  - intros H x Hx. exact (find_none p l H x Hx).
  - induction l as [|y l IH]; intros H; simpl; trivial.
    rewrite (H y) by (left; reflexivity). apply IH.
    intros x Hx. apply H. right. exact Hx.
Qed.

Lemma find_app_last {A : Type} (p : A -> bool) (l : list A) (r : A) :
  List.find p (l ++ [r]) =
    match List.find p l with
    | Some x => Some x
    | None => if p r then Some r else None
    end.
Proof.
  induction l as [|y l IH]; simpl.
  - reflexivity.
  - destruct (p y); [reflexivity | exact IH].
Qed.

Lemma Friendship_eqb_eq (f g : Friendship) :
  Mongoose.Friendship_eqb f g = true <-> f = g.
Proof.
  unfold Mongoose.Friendship_eqb.
  destruct f as [r1 q1 s1 t1 d1], g as [r2 q2 s2 t2 d2]; cbn [requester requested status dateSent dateAccepted].
  rewrite !andb_true_iff, !equals_eq, String.eqb_eq, Z.eqb_eq.
  split.
  - intros [[[[-> ->] ->] ->] Hd].
    destruct d1 as [x|], d2 as [y|]; try discriminate; trivial.
    apply Z.eqb_eq in Hd. subst. reflexivity.
  - intros H. injection H as -> -> -> -> ->.
    repeat split. destruct d2; trivial. apply Z.eqb_refl.
Qed.

Lemma remove_one_split (doc : Friendship) (l : list Friendship) :
  In doc l ->
  exists before after,
    l = before ++ doc :: after /\ Mongoose.remove_one doc l = before ++ after.
Proof.
  induction l as [|f l IH]; intros H; [destruct H|].
  simpl. destruct (Mongoose.Friendship_eqb doc f) eqn:E.
  - apply Friendship_eqb_eq in E. subst f. exists [], l. auto.
  - destruct H as [H|H].
    + subst f. assert (Hr : Mongoose.Friendship_eqb doc doc = true)
        by (apply Friendship_eqb_eq; reflexivity). congruence.
    + destruct (IH H) as (before & after & -> & Hr).
      exists (f :: before), after. simpl. rewrite Hr. auto.
Qed.

Lemma remove_one_app_last (doc : Friendship) (l : list Friendship) :
  ~ In doc l -> Mongoose.remove_one doc (l ++ [doc]) = l.
Proof.
  induction l as [|f l IH]; intros H; simpl.
  - replace (Mongoose.Friendship_eqb doc doc) with true
      by (symmetry; apply Friendship_eqb_eq; reflexivity).
    reflexivity.
  - destruct (Mongoose.Friendship_eqb doc f) eqn:E.
    + apply Friendship_eqb_eq in E. subst f. exfalso. apply H. left. reflexivity.
    + f_equal. apply IH. intros Hin. apply H. right. exact Hin.
Qed.

Lemma pending_not_accepted (a b : ObjectId) (f : Friendship) :
  status f = "Pending"%string -> matches (accepted_between a b) f = false.
Proof.
  intros H. unfold accepted_between. cbn [matches]. rewrite H.
  apply andb_false_r.
Qed.

Lemma matches_pending_request (a b : ObjectId) (f : Friendship) :
  matches (pending_request a b) f = true <->
  requester f = a /\ requested f = b /\ status f = "Pending"%string.
Proof.
  unfold pending_request. cbn [matches].
  rewrite !andb_true_iff, !equals_eq, String.eqb_eq.
  split; intros (H1 & H2 & H3); repeat split; congruence.
Qed.

Lemma create_is_pending (now : Z) (a b : ObjectId) :
  matches (pending_request a b) (Mongoose.create now a b) = true.
Proof. apply matches_pending_request. repeat split. Qed.

Section WithDirectory.
Variable viewProfile : ObjectId -> string -> callback (option AccountModel.AccountInfo).

(** What a successful [friendRequest] says about the state it ran in. *)
Lemma friendRequest_created db now a email request db1 :
  AccountModel.friendRequest viewProfile db now a email
    = (Called (Ok (Some request)), db1) ->
  exists info,
    viewProfile a email = Ok (Some info) /\
    List.find (matches (accepted_between a (AccountModel._id info))) (docs db) = None /\
    AccountModel.friendRequests info = true /\
    fault db = None /\
    request = Mongoose.create now a (AccountModel._id info) /\
    db1 = healthy (docs db ++ [request]).
Proof.
  unfold AccountModel.friendRequest, AccountModel.getFriendship,
    Mongoose.findOne, Mongoose.save, AccountModel.populatedFriendship.
  destruct (viewProfile a email) as [e|[info|]]; try discriminate.
  destruct (fault db) as [e|] eqn:Hf.
  - destruct (AccountModel.friendRequests info); discriminate.
  - fold (accepted_between a (AccountModel._id info)).
    destruct (List.find _ (docs db)) as [f|] eqn:Hfind; [discriminate|].
    destruct (AccountModel.friendRequests info) eqn:Hallow; [|discriminate].
    cbn [negb]. intros H. injection H as <- <-.
    exists info. repeat split; trivial.
Qed.

(** When [friendRequest] goes through. *)
Lemma friendRequest_succeeds ds now a email info :
  viewProfile a email = Ok (Some info) ->
  List.find (matches (accepted_between a (AccountModel._id info))) ds = None ->
  AccountModel.friendRequests info = true ->
  AccountModel.friendRequest viewProfile (healthy ds) now a email
    = (Called (Ok (Some (Mongoose.create now a (AccountModel._id info)))),
       healthy (ds ++ [Mongoose.create now a (AccountModel._id info)])).
Proof.
  intros Hvp Hfind Hallow.
  unfold AccountModel.friendRequest, AccountModel.getFriendship,
    Mongoose.findOne, Mongoose.save.
  rewrite Hvp. cbn [healthy fault docs].
  fold (accepted_between a (AccountModel._id info)).
  rewrite Hfind, Hallow. reflexivity.
Qed.

(** [friendRequest] only looks for an Accepted edge: a Pending one does
    not stop the next request. *)
Lemma friendRequest_ignores_pending ds now later a email info :
  viewProfile a email = Ok (Some info) ->
  List.find (matches (accepted_between a (AccountModel._id info))) ds = None ->
  AccountModel.friendRequests info = true ->
  let request := Mongoose.create now a (AccountModel._id info) in
  let again := Mongoose.create later a (AccountModel._id info) in
  AccountModel.friendRequest viewProfile (healthy (ds ++ [request])) later a email
    = (Called (Ok (Some again)), healthy ((ds ++ [request]) ++ [again])).
Proof.
  intros Hvp Hfind Hallow request again.
  apply friendRequest_succeeds; trivial.
  rewrite find_app_last, Hfind.
  rewrite pending_not_accepted; reflexivity.
Qed.

End WithDirectory.

End RequestFacts.

Module Requests.
Import RequestFacts.

Lemma request_again viewProfile ds ds2 now later a email info :
  viewProfile a email = Ok (Some info) ->
  List.find (matches (accepted_between a (AccountModel._id info))) ds = None ->
  AccountModel.friendRequests info = true ->
  (forall x, In x ds2 ->
     In x (ds ++ [Mongoose.create now a (AccountModel._id info)])) ->
  absent_and_requestable viewProfile (healthy ds2) later a email (AccountModel._id info).
Proof.
  intros Hvp Hfind Hallow Hsub.
  assert (Hnone : List.find (matches (accepted_between a (AccountModel._id info))) ds2 = None).
  { apply find_none_iff. intros x Hx. apply Hsub in Hx.
    apply in_app_or in Hx. destruct Hx as [Hx|[<-|[]]].
    - revert x Hx. apply find_none_iff. exact Hfind.
    - apply pending_not_accepted. reflexivity. }
  unfold absent_and_requestable.
  split; [|split].
  - unfold AccountModel.getFriendship, Mongoose.findOne. cbn [healthy fault docs].
    fold (accepted_between a (AccountModel._id info)). rewrite Hnone. reflexivity.
  - unfold FriendshipModel.getFriendship, Mongoose.findOne. cbn [healthy fault docs].
    fold (accepted_between a (AccountModel._id info)). rewrite Hnone. reflexivity.
  - eexists. eexists. split.
    + apply friendRequest_succeeds; eassumption.
    + repeat split. cbn [healthy docs]. apply in_or_app. right. left. reflexivity.
Qed.

(** The [denyRequest] of src/lib/friendship.js after a request that went
    through: it deletes the first Pending edge from [a] to [b], which is
    the stored one when no older one exists, and writes nothing;
    afterwards [getFriendship(a, b)] finds nothing and [a] can send the
    request again. *)
Lemma FriendshipModel_denyRequest_after_request
    (viewProfile : ObjectId -> string -> callback (option AccountModel.AccountInfo))
    (db : Db) (now later : Z) (a : ObjectId) (email : string)
    (request : Friendship) (db1 : Db) :
  AccountModel.friendRequest viewProfile db now a email
    = (Called (Ok (Some request)), db1) ->
  let b := requested request in
  (status request = "Pending"%string /\ In request (docs db1)) /\
  (exists removed db2,
     FriendshipModel.denyRequest db1 a b = (Ok removed, db2) /\
     matches (pending_request a b) removed = true /\
     (exists before after,
        docs db1 = before ++ removed :: after /\ docs db2 = before ++ after) /\
     (List.find (matches (pending_request a b)) (docs db) = None ->
        removed = request /\ docs db2 = docs db) /\
     absent_and_requestable viewProfile db2 later a email b).
Proof.
  intros H.
  destruct (friendRequest_created viewProfile _ _ _ _ _ _ H)
    as (info & Hvp & Hfind & Hallow & Hfault & -> & ->).
  cbn [Mongoose.create requested status healthy docs].
  set (b := AccountModel._id info).
  set (request := Mongoose.create now a b).
  assert (Hreq : matches (pending_request a b) request = true)
    by apply create_is_pending.
  assert (Hsome : exists removed,
             List.find (matches (pending_request a b)) (docs db ++ [request])
               = Some removed /\
             (List.find (matches (pending_request a b)) (docs db) = None ->
                removed = request)).
  { rewrite find_app_last, Hreq.
    destruct (List.find (matches (pending_request a b)) (docs db)) as [r|].
    - exists r. split; [reflexivity | discriminate].
    - exists request. auto. }
  destruct Hsome as (removed & Hfound & Honly).
  destruct (find_some _ _ Hfound) as [Hin Hmatch].
  split.
  - split; [reflexivity|]. apply in_or_app. right. left. reflexivity.
  - destruct (remove_one_split removed _ Hin) as (before & after & Hdocs & Hrm).
    exists removed, (healthy (Mongoose.remove_one removed (docs db ++ [request]))).
    split; [|split; [|split; [|split]]].
    + unfold FriendshipModel.denyRequest, Mongoose.findOne, Mongoose.document_remove.
      cbn [healthy fault docs]. fold (pending_request a b).
      rewrite Hfound. reflexivity.
    + exact Hmatch.
    + exists before, after. cbn [healthy docs]. auto.
    + intros Hnone. split; [auto|]. rewrite (Honly Hnone). cbn [healthy docs].
      apply remove_one_app_last. intros Hindb.
      pose proof (proj1 (find_none_iff _ _) Hnone request Hindb). congruence.
    + apply (request_again viewProfile (docs db) _ now); trivial.
      intros x Hx. fold b. fold request. rewrite Hrm in Hx. rewrite Hdocs.
      apply in_app_or in Hx. apply in_or_app.
      destruct Hx; [left | right; right]; assumption.
Qed.

(** C7, at the stores where it breaks.  alice's request to bob is stored
    as Pending.  The [denyRequest] of the second friendship module reads
    the undeclared [Friendship], throws, and leaves the edge where it is.
    The [denyRequest] of src/lib/friendship.js deletes the edge when it is
    the only Pending one from alice to bob; with an older one in the
    collection it deletes that one, and the edge just stored stays. *)
Theorem denyRequest_misses_the_stored_request :
  let older := Mongoose.create 5 Sample.alice Sample.bob in
  let request := Mongoose.create 10 Sample.alice Sample.bob in
  AccountModel.friendRequest Sample.directory (healthy []) 10 Sample.alice
      "bob@example.org"
    = (Called (Ok (Some request)), healthy [request]) /\
  FriendshipModelB.denyRequest (healthy [request]) Sample.alice Sample.bob
    = (Thrown (ReferenceError "Friendship"), healthy [request]) /\
  FriendshipModel.denyRequest (healthy [request]) Sample.alice Sample.bob
    = (Ok request, healthy []) /\
  AccountModel.friendRequest Sample.directory (healthy [older]) 10 Sample.alice
      "bob@example.org"
    = (Called (Ok (Some request)), healthy [older; request]) /\
  FriendshipModel.denyRequest (healthy [older; request]) Sample.alice Sample.bob
    = (Ok older, healthy [request]).
Proof. repeat split. Qed.

End Requests.

(** * The plugin: duplicate requests, acceptance and the privacy policy *)

Module Plugin.
Import RequestFacts.

(** C3, at the store where it breaks.  After alice's request to bob is
    stored as Pending, the same request again, and bob's request to alice,
    each go through and store one more Pending edge for the pair; with an
    Accepted edge the call neither stores anything nor reaches [done]. *)
Theorem friendRequest_stores_a_second_pending_edge :
  let first := Mongoose.create 10 Sample.alice Sample.bob in
  let second := Mongoose.create 20 Sample.alice Sample.bob in
  let back := Mongoose.create 20 Sample.bob Sample.alice in
  AccountModel.friendRequest Sample.directory (healthy []) 10 Sample.alice
      "bob@example.org"
    = (Called (Ok (Some first)), healthy [first]) /\
  AccountModel.friendRequest Sample.directory (healthy [first]) 20 Sample.alice
      "bob@example.org"
    = (Called (Ok (Some second)), healthy [first; second]) /\
  AccountModel.friendRequest Sample.directory (healthy [first]) 20 Sample.bob
      "alice@example.org"
    = (Called (Ok (Some back)), healthy [first; back]) /\
  AccountModel.friendRequest Sample.directory
      (healthy [Sample.accepted Sample.alice Sample.bob]) 20 Sample.alice
      "bob@example.org"
    = (Thrown (ReferenceError "populatedFriendship"),
       healthy [Sample.accepted Sample.alice Sample.bob]).
Proof. repeat split. Qed.

(** C5, at the store where it breaks.  alice's request to bob is stored
    as Pending; the plugin's [acceptRequest(alice, bob)] hands the two ids
    to the friendship model in the opposite order, finds no request and
    throws, leaving the edge Pending.  The friendship model's own
    [acceptRequest(alice, bob)] accepts it. *)
Theorem plugin_acceptRequest_misses_the_request
    (returnNew : bool) (accounts_fault : option Error) :
  let request := Mongoose.create 10 Sample.alice Sample.bob in
  let accepted := mkFriendship Sample.alice Sample.bob "Accepted" 10 (Some 20%Z) in
  AccountModel.friendRequest Sample.directory (healthy []) 10 Sample.alice
      "bob@example.org"
    = (Called (Ok (Some request)), healthy [request]) /\
  AccountModel.acceptRequest returnNew accounts_fault (healthy [request]) 20
      Sample.alice Sample.bob
    = (Thrown (Raised (ErrorString request_does_not_exist)), healthy [request]) /\
  FriendshipModel.acceptRequest true (healthy [request]) 20 Sample.alice Sample.bob
    = (Ok accepted, healthy [accepted]).
Proof. destruct returnNew; repeat split. Qed.

Lemma update_first_app_last c u ds r :
  List.find (matches c) ds = None ->
  Mongoose.update_first c u (ds ++ [r]) =
    if matches c r then (Some r, ds ++ [Mongoose.apply_updates u r])
    else (None, ds ++ [r]).
Proof.
  induction ds as [|f ds IH]; simpl; intros H.
  - destruct (matches c r); reflexivity.
  - destruct (matches c f); [discriminate|].
    rewrite (IH H). destruct (matches c r); reflexivity.
Qed.

Lemma update_first_none c u ds :
  List.find (matches c) ds = None -> Mongoose.update_first c u ds = (None, ds).
Proof.
  induction ds as [|f ds IH]; simpl; intros H; trivial.
  destruct (matches c f); [discriminate|]. rewrite (IH H). reflexivity.
Qed.

(** The [acceptRequest] of src/lib/friendship.js, called with the
    requester first, behaves as its documentation says: a Pending edge from [a] to [b] that is the only one becomes Accepted with
    its [dateAccepted] set, it had none before, and accepting once more
    finds no request. *)
Lemma FriendshipModel_acceptRequest_once ds now later again a b :
  List.find (matches (pending_request a b)) ds = None ->
  let request := Mongoose.create now a b in
  let accepted := mkFriendship a b "Accepted" now (Some later) in
  dateAccepted request = None /\
  FriendshipModel.acceptRequest true (healthy (ds ++ [request])) later a b
    = (Ok accepted, healthy (ds ++ [accepted])) /\
  FriendshipModel.acceptRequest true (healthy (ds ++ [accepted])) again a b
    = (Err (ErrorObject request_does_not_exist), healthy (ds ++ [accepted])).
Proof.
  intros Hnone request accepted. split; [reflexivity|].
  unfold FriendshipModel.acceptRequest, Mongoose.findOneAndUpdate.
  cbn [healthy fault docs]. fold (pending_request a b).
  split.
  - rewrite update_first_app_last by assumption.
    unfold request. rewrite create_is_pending. reflexivity.
  - rewrite update_first_none; [reflexivity|].
    rewrite find_app_last, Hnone.
    replace (matches (pending_request a b) accepted) with false; [reflexivity|].
    symmetry. unfold pending_request, accepted. cbn [matches status].
    rewrite !andb_false_r. reflexivity.
Qed.

(** C4 as stated fails when alice and bob are friends already: bob's
    friend-request setting is [NOBODY], yet the answer is not the refusal
    of the privacy gate. *)
Lemma closed_but_not_refused :
  ~ refused_iff_closed 3 [Sample.bob_closed]
      (healthy [Sample.accepted Sample.alice Sample.bob]) 10 Sample.alice
      Sample.bob_closed.
Proof.
  unfold refused_iff_closed. intros [_ H].
  specialize (H eq_refl). vm_compute in H. discriminate H.
Qed.

Lemma unrelated_not_accepted (a b : ObjectId) (ds : list Friendship) :
  List.find (relates a b) ds = None ->
  List.find (matches (accepted_between a b)) ds = None.
Proof.
  rewrite !find_none_iff. intros H f Hin. specialize (H f Hin).
  unfold relates in H. unfold accepted_between. cbn [matches].
  rewrite (String.eqb_sym "Accepted" (status f)).
  destruct ((equals a (requester f) && equals b (requested f))
            || (equals b (requester f) && equals a (requested f)));
    [|reflexivity].
  cbn [andb] in *. apply orb_false_iff in H. tauto.
Qed.

(** C4, amended.  For a requested account that the identity store
    resolves and that no Pending or Accepted edge relates to the
    requester, in either direction, [sendRequest] is refused as not
    allowed, storing nothing, exactly when the account's friend-request
    setting is [NOBODY], the top of the scale; with any other setting the
    privacy gate lets the request go on, to be saved. *)
Theorem privacy_gate (ANYBODY NOBODY : Z) (accounts : list Privacy.Account)
    (ds : list Friendship) (now : Z) (a : ObjectId) (acc : Privacy.Account) :
  List.find (fun x => String.eqb (Privacy.email x) (Privacy.email acc)) accounts
    = Some acc ->
  List.find (relates a (Privacy._id acc)) ds = None ->
  let setting := Privacy.friendRequests (Privacy.privacy acc) in
  let request := Mongoose.create now a (Privacy._id acc) in
  refused_iff_closed NOBODY accounts (healthy ds) now a acc /\
  (setting <> NOBODY ->
     Privacy.sendRequest NOBODY accounts (healthy ds) now a (Privacy.email acc)
       = (Called (Ok (Some request)), healthy (ds ++ [request]))) /\
  (Privacy.valid_setting ANYBODY NOBODY setting = true ->
     (setting <> NOBODY <-> (setting < NOBODY)%Z)).
Proof.
  intros Hres Hunrelated setting request.
  pose proof (unrelated_not_accepted _ _ _ Hunrelated) as Hfind.
  assert (Hnone : AccountModel.getFriendship (healthy ds) a (Privacy._id acc) = Ok None).
  { unfold AccountModel.getFriendship, Mongoose.findOne. cbn [healthy fault docs].
    fold (accepted_between a (Privacy._id acc)). rewrite Hfind. reflexivity. }
  assert (Hrun : Privacy.sendRequest NOBODY accounts (healthy ds) now a (Privacy.email acc)
            = if Z.eqb setting NOBODY
              then (Called (Err not_allowed), healthy ds)
              else (Called (Ok (Some request)), healthy (ds ++ [request]))).
  { unfold Privacy.sendRequest, AccountModel.friendRequest, Privacy.viewProfile.
    rewrite Hres. cbn [AccountModel._id AccountModel.friendRequests].
    rewrite Hnone. unfold Privacy.canReceiveFriendRequest. fold setting.
    rewrite negb_involutive.
    destruct (Z.eqb setting NOBODY); reflexivity. }
  split; [|split].
  - unfold refused_iff_closed. fold setting. rewrite Hrun.
    destruct (Z.eqb setting NOBODY) eqn:E.
    + apply Z.eqb_eq in E. tauto.
    + apply Z.eqb_neq in E. split; [discriminate | contradiction].
  - intros Hne. rewrite Hrun. apply Z.eqb_neq in Hne. rewrite Hne. reflexivity.
  - unfold Privacy.valid_setting. intros Hv.
    apply andb_true_iff in Hv. destruct Hv as [_ Hv]. apply Z.leb_le in Hv. lia.
Qed.

(** bob takes requests from anybody and alice has no edge with him. *)
Lemma privacy_gate_witness :
  List.find (fun x => String.eqb (Privacy.email x) (Privacy.email Sample.bob_open))
            [Sample.bob_open] = Some Sample.bob_open /\
  List.find (relates Sample.alice (Privacy._id Sample.bob_open))
            [Sample.accepted Sample.alice Sample.carol] = None /\
  Privacy.sendRequest 3 [Sample.bob_open]
      (healthy [Sample.accepted Sample.alice Sample.carol]) 10 Sample.alice
      (Privacy.email Sample.bob_open)
    = (Called (Ok (Some (Mongoose.create 10 Sample.alice Sample.bob))),
       healthy [Sample.accepted Sample.alice Sample.carol;
                Mongoose.create 10 Sample.alice Sample.bob]).
Proof.
  split; [reflexivity|]. split; [reflexivity|].
  destruct (privacy_gate 0 3 [Sample.bob_open]
              [Sample.accepted Sample.alice Sample.carol] 10 Sample.alice
              Sample.bob_open eq_refl eq_refl) as (_ & H & _).
  apply H. discriminate.
Defined.

End Plugin.


(** * The engine as a whole: helper facts *)

Module EngineFacts.
Import RequestFacts FriendshipFacts.

Lemma find_ext {A : Type} (p q : A -> bool) (l : list A) :
  (forall x, p x = q x) -> List.find p l = List.find q l.
Proof.
  intros H. induction l as [|y l IH]; simpl; trivial.
  rewrite H, IH. reflexivity.
Qed.

Lemma find_split {A : Type} (p : A -> bool) (l : list A) (f : A) :
  List.find p l = Some f ->
  exists before after,
    l = before ++ f :: after /\ (forall x, In x before -> p x = false) /\ p f = true.
Proof.
  induction l as [|y l IH]; simpl; [discriminate|].
  destruct (p y) eqn:E.
  - intros H. injection H as <-. exists [], l. repeat split; trivial.
    intros x [].
  - intros H. destruct (IH H) as (before & after & -> & Hb & Hf).
    exists (y :: before), after. repeat split; trivial.
    intros x [<-|Hx]; auto.
Qed.

Lemma update_first_split c u before f after :
  (forall x, In x before -> matches c x = false) ->
  matches c f = true ->
  Mongoose.update_first c u (before ++ f :: after)
    = (Some f, before ++ Mongoose.apply_updates u f :: after).
Proof.
  intros Hb Hf. induction before as [|y before IH]; simpl.
  - rewrite Hf. reflexivity.
  - rewrite (Hb y) by (left; reflexivity).
    rewrite IH; [reflexivity|]. intros x Hx. apply Hb. right. exact Hx.
Qed.

Lemma update_first_missing c u ds :
  List.find (matches c) ds = None -> Mongoose.update_first c u ds = (None, ds).
Proof.
  induction ds as [|f ds IH]; simpl; intros H; trivial.
  destruct (matches c f); [discriminate|]. rewrite (IH H). reflexivity.
Qed.

Lemma remove_one_middle d l1 l2 :
  ~ In d l1 -> Mongoose.remove_one d (l1 ++ d :: l2) = l1 ++ l2.
Proof.
  induction l1 as [|f l1 IH]; intros H; simpl.
  - replace (Mongoose.Friendship_eqb d d) with true
      by (symmetry; apply Friendship_eqb_eq; reflexivity).
    reflexivity.
  - destruct (Mongoose.Friendship_eqb d f) eqn:E.
    + apply Friendship_eqb_eq in E. subst f. exfalso. apply H. left. reflexivity.
    + f_equal. apply IH. intros Hin. apply H. right. exact Hin.
Qed.

Lemma remove_one_first_match (p : Friendship -> bool) before f after :
  (forall x, In x before -> p x = false) -> p f = true ->
  Mongoose.remove_one f (before ++ f :: after) = before ++ after.
Proof.
  intros Hb Hf. apply remove_one_middle. intros Hin.
  rewrite (Hb f Hin) in Hf. discriminate.
Qed.

(** The conditions of [getFriends]. *)
Lemma friends_need_accepted x f :
  status f <> "Accepted"%string ->
  matches (All (Any (Requester x) (Requested x)) (Status "Accepted")) f = false.
Proof.
  intros H. cbn [matches].
  replace (String.eqb "Accepted" (status f)) with false.
  - apply andb_false_r.
  - symmetry. apply String.eqb_neq. congruence.
Qed.

Lemma friendIds_app ds ds' x : friendIds (ds ++ ds') x = friendIds ds x ++ friendIds ds' x.
Proof. unfold friendIds. rewrite filter_app, map_app. reflexivity. Qed.

Lemma friendIds_not_accepted f x :
  status f <> "Accepted"%string -> friendIds [f] x = [].
Proof.
  intros H. unfold friendIds. cbn [filter].
  rewrite friends_need_accepted by assumption. reflexivity.
Qed.

Lemma friendIds_cons f ds x : friendIds (f :: ds) x = friendIds [f] x ++ friendIds ds x.
Proof. apply (friendIds_app [f] ds x). Qed.

Lemma friendIds_without ds before f after x :
  ds = before ++ f :: after -> status f <> "Accepted"%string ->
  friendIds (before ++ after) x = friendIds ds x.
Proof.
  intros -> H. rewrite !friendIds_app, (friendIds_cons f after).
  rewrite friendIds_not_accepted by assumption. reflexivity.
Qed.

Lemma friendIds_filter_pending ds a b x :
  friendIds (filter (fun f => negb (matches (pending_request a b) f)) ds) x
  = friendIds ds x.
Proof.
  induction ds as [|f ds IH]; [reflexivity|].
  cbn [filter]. destruct (matches (pending_request a b) f) eqn:E; cbn [negb].
  - rewrite IH, (friendIds_cons f ds), friendIds_not_accepted; [reflexivity|].
    apply matches_pending_request in E. destruct E as (_ & _ & E).
    rewrite E. discriminate.
  - rewrite (friendIds_cons f ds), (friendIds_cons f (filter _ ds)), IH. reflexivity.
Qed.

Lemma getFriends_docs db db' x :
  fault db' = fault db -> friendIds (docs db') x = friendIds (docs db) x ->
  FriendshipModel.getFriends db' x = FriendshipModel.getFriends db x.
Proof.
  intros Hf Hd.
  destruct (getFriends_cases db x) as [(e & He & ->)|[He ->]];
    destruct (getFriends_cases db' x) as [(e' & He' & ->)|[He' ->]];
    congruence.
Qed.

(** What the two [denyRequest] do to the collection. *)
Lemma denyRequest_cases db a b :
  (FriendshipModel.denyRequest db a b = (Err (ErrorObject request_does_not_exist), db)
   /\ fault db = None
   /\ List.find (matches (pending_request a b)) (docs db) = None) \/
  (exists e, fault db = Some e /\ FriendshipModel.denyRequest db a b = (Err e, db)) \/
  (exists before f after,
     fault db = None /\ docs db = before ++ f :: after /\
     (forall x, In x before -> matches (pending_request a b) x = false) /\
     matches (pending_request a b) f = true /\
     FriendshipModel.denyRequest db a b = (Ok f, healthy (before ++ after))).
Proof.
  unfold FriendshipModel.denyRequest, Mongoose.findOne, Mongoose.document_remove.
  fold (pending_request a b).
  destruct (fault db) as [e|] eqn:Hf.
  - right. left. exists e. auto.
  - destruct (List.find (matches (pending_request a b)) (docs db)) as [f|] eqn:E.
    + right. right. destruct (find_split _ _ _ E) as (before & after & Hd & Hb & Hm).
      exists before, f, after. repeat split; trivial.
      rewrite Hd, (remove_one_first_match _ _ _ _ Hb Hm). reflexivity.
    + left. auto.
Qed.

Lemma denyRequestB_throws db a b :
  FriendshipModelB.denyRequest db a b = (Thrown (ReferenceError "Friendship"), db).
Proof. reflexivity. Qed.

(** What the [acceptRequest] of src/lib/friendship.js does to the
    collection. *)
Lemma acceptRequest_cases returnNew db now a b :
  (FriendshipModel.acceptRequest returnNew db now a b
     = (Err (ErrorObject request_does_not_exist), answering db)
   /\ fault db = None
   /\ List.find (matches (pending_request a b)) (docs db) = None) \/
  (exists e, fault db = Some e /\
     FriendshipModel.acceptRequest returnNew db now a b = (Err e, db)) \/
  (exists before f after,
     fault db = None /\ docs db = before ++ f :: after /\
     (forall x, In x before -> matches (pending_request a b) x = false) /\
     matches (pending_request a b) f = true /\
     FriendshipModel.acceptRequest returnNew db now a b
       = (Ok (if returnNew then accepted_at now f else f),
          healthy (before ++ accepted_at now f :: after))).
Proof.
  unfold FriendshipModel.acceptRequest, Mongoose.findOneAndUpdate.
  fold (pending_request a b).
  destruct (fault db) as [e|] eqn:Hf.
  - right. left. exists e. auto.
  - destruct (List.find (matches (pending_request a b)) (docs db)) as [f|] eqn:E.
    + right. right. destruct (find_split _ _ _ E) as (before & after & Hd & Hb & Hm).
      exists before, f, after.
      split; [reflexivity|]. split; [exact Hd|]. split; [exact Hb|].
      split; [exact Hm|].
      rewrite Hd, (update_first_split _ _ _ _ _ Hb Hm).
      destruct returnNew; reflexivity.
    + left. rewrite (update_first_missing _ _ _ E).
      split; [destruct returnNew; reflexivity | auto].
Qed.

Lemma acceptRequest_ok_inv returnNew db now a b f' db' :
  FriendshipModel.acceptRequest returnNew db now a b = (Ok f', db') ->
  exists before f after,
    fault db = None /\ docs db = before ++ f :: after /\
    (forall x, In x before -> matches (pending_request a b) x = false) /\
    requester f = a /\ requested f = b /\ status f = "Pending"%string /\
    f' = (if returnNew then accepted_at now f else f) /\
    db' = healthy (before ++ accepted_at now f :: after).
Proof.
  intros H.
  destruct (acceptRequest_cases returnNew db now a b)
    as [(H1 & _)|[(e & _ & H1)|(before & f & after & Hf & Hd & Hb & Hm & H1)]];
    rewrite H1 in H; try discriminate.
  injection H as <- <-. apply matches_pending_request in Hm.
  destruct Hm as (Hr & Hq & Hs).
  exists before, f, after. repeat split; trivial.
Qed.

(** Accepting the request from [a] to [b] adds the pair to the Accepted
    edges and touches no other. *)
Lemma accepted_edge_accept before f after now x y :
  status f = "Pending"%string ->
  (accepted_edge (before ++ accepted_at now f :: after) x y <->
   accepted_edge (before ++ f :: after) x y
   \/ (x = requester f /\ y = requested f) \/ (x = requested f /\ y = requester f)).
Proof.
  intros Hs. unfold accepted_edge. split.
  - intros (g & Hin & Hst & Hj). apply in_app_or in Hin.
    destruct Hin as [Hin|[<-|Hin]].
    + left. exists g. repeat split; trivial. apply in_or_app. auto.
    + right. cbn [accepted_at requester requested] in Hj.
      destruct Hj as [[<- <-]|[<- <-]]; auto.
    + left. exists g. repeat split; trivial. apply in_or_app. right. right. exact Hin.
  - intros [(g & Hin & Hst & Hj)|Hp].
    + exists g. repeat split; trivial. apply in_app_or in Hin. apply in_or_app.
      destruct Hin as [Hin|[<-|Hin]]; auto.
      * rewrite Hs in Hst. discriminate.
      * right. right. exact Hin.
    + exists (accepted_at now f). split; [apply in_or_app; right; left; reflexivity|].
      split; [reflexivity|]. cbn [accepted_at requester requested].
      destruct Hp as [[-> ->]|[-> ->]]; auto.
Qed.

Lemma getRelationship_friends ds a b :
  In b (friendIds ds a) -> FriendshipModel.getRelationship (healthy ds) a b = Ok FRIENDS.
Proof.
  intros H. unfold FriendshipModel.getRelationship.
  destruct (areFriends_healthy ds a b) as (answer & -> & Ha).
  apply Ha in H. subst answer. reflexivity.
Qed.

End EngineFacts.

(** * The engine as a whole: accepting and denying *)

Module Engine.
Import RequestFacts FriendshipFacts EngineFacts.

(** X1. [acceptRequest(a, b)] rewrites the first Pending edge from [a] to
    [b] in place, to Accepted with [now] as its date of acceptance, and
    leaves every other document and the order of the collection as they
    were; with no such edge it answers that the request does not exist and
    changes nothing. *)
Theorem acceptRequest_rewrites_first_pending
    (returnNew : bool) (ds : list Friendship) (now : Z) (a b : ObjectId) :
  match List.find (matches (pending_request a b)) ds with
  | None =>
      FriendshipModel.acceptRequest returnNew (healthy ds) now a b
        = (Err (ErrorObject request_does_not_exist), healthy ds)
  | Some f =>
      exists before after,
        ds = before ++ f :: after /\
        (forall x, In x before -> matches (pending_request a b) x = false) /\
        FriendshipModel.acceptRequest returnNew (healthy ds) now a b
          = (Ok (if returnNew then accepted_at now f else f),
             healthy (before ++ mkFriendship a b "Accepted" (dateSent f) (Some now)
                             :: after))
  end.
Proof.
  destruct (List.find (matches (pending_request a b)) ds) as [f|] eqn:E.
  - destruct (find_split _ _ _ E) as (before & after & Hd & Hb & Hm).
    exists before, after. split; [exact Hd|]. split; [exact Hb|].
    unfold FriendshipModel.acceptRequest, Mongoose.findOneAndUpdate.
    fold (pending_request a b). cbn [healthy fault docs].
    rewrite Hd, (update_first_split _ _ _ _ _ Hb Hm).
    apply matches_pending_request in Hm. destruct Hm as (<- & <- & _).
    destruct returnNew; reflexivity.
  - unfold FriendshipModel.acceptRequest, Mongoose.findOneAndUpdate.
    fold (pending_request a b). cbn [healthy fault docs].
    rewrite (update_first_missing _ _ _ E). destruct returnNew; reflexivity.
Qed.

(** X2. When [acceptRequest(a, b)] succeeds, [a] and [b] are in each
    other's [getFriends], [getRelationship] answers FRIENDS for the pair in
    both orders, and no other friend list gains or loses anybody. *)
Theorem acceptRequest_befriends_the_pair_only
    (returnNew : bool) (db : Db) (now : Z) (a b : ObjectId)
    (f' : Friendship) (db' : Db) :
  FriendshipModel.acceptRequest returnNew db now a b = (Ok f', db') ->
  (forall x y,
     in_result y (FriendshipModel.getFriends db' x) <->
     in_result y (FriendshipModel.getFriends db x)
     \/ (x = a /\ y = b) \/ (x = b /\ y = a)) /\
  FriendshipModel.getRelationship db' a b = Ok FRIENDS /\
  FriendshipModel.getRelationship db' b a = Ok FRIENDS.
Proof.
  intros H. apply acceptRequest_ok_inv in H.
  destruct H as (before & f & after & Hf & Hd & _ & Hr & Hq & Hs & _ & ->).
  assert (Hedge : forall x y,
    accepted_edge (before ++ accepted_at now f :: after) x y <->
    accepted_edge (docs db) x y \/ (x = a /\ y = b) \/ (x = b /\ y = a)).
  { intros x y. rewrite Hd, accepted_edge_accept by assumption.
    rewrite Hr, Hq. reflexivity. }
  split; [|split].
  - intros x y. rewrite !in_result_getFriends. cbn [healthy fault docs].
    rewrite Hedge. tauto.
  - apply getRelationship_friends, In_friendIds, Hedge. auto.
  - apply getRelationship_friends, In_friendIds, Hedge. auto.
Qed.

(** bob accepts the request alice sent him. *)
Lemma acceptRequest_befriends_the_pair_only_witness :
  FriendshipModel.acceptRequest true
      (healthy [Mongoose.create 10 Sample.alice Sample.bob]) 20 Sample.alice Sample.bob
    = (Ok (accepted_at 20 (Mongoose.create 10 Sample.alice Sample.bob)),
       healthy [accepted_at 20 (Mongoose.create 10 Sample.alice Sample.bob)]) /\
  FriendshipModel.getRelationship
      (healthy [accepted_at 20 (Mongoose.create 10 Sample.alice Sample.bob)])
      Sample.bob Sample.alice = Ok FRIENDS.
Proof.
  split; [reflexivity|].
  exact (proj2 (proj2 (acceptRequest_befriends_the_pair_only true
           (healthy [Mongoose.create 10 Sample.alice Sample.bob]) 20
           Sample.alice Sample.bob _ _ eq_refl))).
Defined.

(** X3. Neither [denyRequest] changes what [getFriends] answers, for any
    account, whether the denial succeeds or not. *)
Theorem denyRequest_keeps_friend_lists (db : Db) (a b x : ObjectId) :
  FriendshipModel.getFriends (snd (FriendshipModel.denyRequest db a b)) x
    = FriendshipModel.getFriends db x /\
  FriendshipModel.getFriends (snd (FriendshipModelB.denyRequest db a b)) x
    = FriendshipModel.getFriends db x.
Proof.
  split.
  - destruct (denyRequest_cases db a b)
      as [(-> & _)|[(e & _ & ->)|(before & f & after & Hf & Hd & _ & Hm & ->)]];
      try reflexivity.
    cbn [snd]. apply getFriends_docs; [symmetry; exact Hf|].
    cbn [healthy docs]. apply (friendIds_without (docs db) before f after x Hd).
    apply matches_pending_request in Hm. destruct Hm as (_ & _ & ->). discriminate.
  - rewrite denyRequestB_throws. reflexivity.
Qed.

(** X4. A [denyRequest(a, b)] of src/lib/friendship.js that succeeds
    found a Pending edge from [a] to [b] and leaves exactly one document
    less.  One that fails leaves the collection untouched, and on a store
    that answers it fails only because no Pending edge from [a] to [b]
    exists, so that an Accepted edge cannot be denied. *)
Theorem denyRequest_outcomes (db : Db) (a b : ObjectId) :
  match FriendshipModel.denyRequest db a b with
  | (Ok r, db') =>
      matches (pending_request a b) r = true /\ In r (docs db) /\
      S (List.length (docs db')) = List.length (docs db)
  | (Err e, db') =>
      db' = db /\
      (fault db = None ->
         e = ErrorObject request_does_not_exist /\
         forall f, In f (docs db) -> matches (pending_request a b) f = false)
  end.
Proof.
  destruct (denyRequest_cases db a b)
    as [(-> & Hf & Hn)|[(e & Hf & ->)|(before & f & after & Hf & Hd & _ & Hm & ->)]].
  - split; trivial. intros _. split; trivial. apply find_none_iff. exact Hn.
  - split; trivial. congruence.
  - split; trivial. rewrite Hd. cbn [healthy docs].
    split; [apply in_or_app; right; left; reflexivity|].
    rewrite !length_app. simpl. lia.
Qed.

End Engine.

(** * The engine as a whole: what every operation keeps *)

Module StateFacts.
Import RequestFacts FriendshipFacts EngineFacts.

Lemma friendRequest_cases
    (viewProfile : ObjectId -> string -> callback (option AccountModel.AccountInfo))
    (db : Db) (now : Z) (a : ObjectId) (email : string) :
  (snd (AccountModel.friendRequest viewProfile db now a email) = db /\
   forall r, fst (AccountModel.friendRequest viewProfile db now a email)
             <> Called (Ok (Some r))) \/
  (exists b, fault db = None /\
     AccountModel.friendRequest viewProfile db now a email
       = (Called (Ok (Some (Mongoose.create now a b))),
          healthy (docs db ++ [Mongoose.create now a b]))).
Proof.
  unfold AccountModel.friendRequest, AccountModel.getFriendship,
    Mongoose.findOne, Mongoose.save, AccountModel.populatedFriendship.
  destruct (viewProfile a email) as [e|[info|]];
    try (left; split; [reflexivity | discriminate]).
  destruct (fault db) as [e|] eqn:Hf.
  - destruct (AccountModel.friendRequests info);
      left; split; try reflexivity; discriminate.
  - destruct (List.find _ (docs db)) as [f|];
      [left; split; [reflexivity | discriminate]|].
    destruct (AccountModel.friendRequests info).
    + right. exists (AccountModel._id info). auto.
    + left. split; [reflexivity | discriminate].
Qed.

Lemma acceptRequestB_snd returnNew db now a b :
  snd (FriendshipModelB.acceptRequest returnNew db now a b)
  = snd (FriendshipModel.acceptRequest returnNew db now a b).
Proof.
  unfold FriendshipModelB.acceptRequest, FriendshipModel.acceptRequest.
  destruct (Mongoose.findOneAndUpdate _ _ _ _) as [[e|[f|]] db']; reflexivity.
Qed.

Lemma acceptRequest_plugin_snd returnNew accounts_fault db now a b :
  snd (AccountModel.acceptRequest returnNew accounts_fault db now a b)
  = snd (FriendshipModel.acceptRequest returnNew db now b a).
Proof.
  rewrite <- acceptRequestB_snd. unfold AccountModel.acceptRequest.
  destruct (FriendshipModelB.acceptRequest returnNew db now b a) as [[[e|f]|x] db'];
    reflexivity.
Qed.

Lemma acceptRequest_change returnNew db now a b :
  change (docs db) (docs (snd (FriendshipModel.acceptRequest returnNew db now a b))).
Proof.
  destruct (acceptRequest_cases returnNew db now a b)
    as [(-> & _)|[(e & _ & ->)|(before & f & after & _ & Hd & _ & Hm & ->)]].
  - left. reflexivity.
  - left. reflexivity.
  - right. right. left. exists before, f, after, now.
    apply matches_pending_request in Hm. destruct Hm as (_ & _ & Hs). auto.
Qed.

Lemma step_change db db' : step db db' -> change (docs db) (docs db').
Proof.
  intros [vp now a email out H|rn now a b r H|rn now a b r H|rn af now a b r H
         |a b r H|a b r H|H].
  - destruct (friendRequest_cases vp db now a email) as [[Hs _]|(b & _ & Hs)];
      rewrite H in Hs.
    + cbn [snd] in Hs. subst db'. left. reflexivity.
    + injection Hs as _ ->. right. left.
      exists (Mongoose.create now a b). auto.
  - replace db' with (snd (FriendshipModel.acceptRequest rn db now a b))
      by (rewrite H; reflexivity).
    apply acceptRequest_change.
  - replace db' with (snd (FriendshipModelB.acceptRequest rn db now a b))
      by (rewrite H; reflexivity).
    rewrite acceptRequestB_snd. apply acceptRequest_change.
  - replace db' with (snd (AccountModel.acceptRequest rn af db now a b))
      by (rewrite H; reflexivity).
    rewrite acceptRequest_plugin_snd. apply acceptRequest_change.
  - destruct (denyRequest_cases db a b)
      as [(Hs & _)|[(e & _ & Hs)|(before & f & after & _ & Hd & _ & Hm & Hs)]];
      rewrite H in Hs; injection Hs as _ ->; try (left; reflexivity).
    right. right. right. exists before, f, after.
    apply matches_pending_request in Hm. destruct Hm as (_ & _ & Hm). auto.
  - rewrite denyRequestB_throws in H. injection H as _ <-. left. reflexivity.
  - left. exact H.
Qed.

Lemma change_well_formed ds ds' :
  change ds ds' -> Forall well_formed ds -> Forall well_formed ds'.
Proof.
  intros [->|[(r & Hs & Hd & ->)|[(before & f & after & now & Hs & -> & ->)
         |(before & f & after & Hs & -> & ->)]]] H; trivial.
  - apply Forall_app. split; trivial. constructor; [|constructor].
    left. auto.
  - apply Forall_app in H. destruct H as [H1 H2]. inversion H2; subst.
    apply Forall_app. split; trivial. constructor; trivial.
    right. split; [reflexivity|]. exists now. reflexivity.
  - apply Forall_app in H. destruct H as [H1 H2]. inversion H2; subst.
    apply Forall_app. auto.
Qed.

Lemma change_keeps_accepted ds ds' g :
  change ds ds' -> In g ds -> status g = "Accepted"%string -> In g ds'.
Proof.
  intros [->|[(r & _ & _ & ->)|[(before & f & after & now & Hs & -> & ->)
         |(before & f & after & Hs & -> & ->)]]] Hin Hst; trivial.
  - apply in_or_app. auto.
  - apply in_app_or in Hin. apply in_or_app.
    destruct Hin as [Hin|[<-|Hin]]; auto.
    + rewrite Hs in Hst. discriminate.
    + right. right. exact Hin.
  - apply in_app_or in Hin. apply in_or_app.
    destruct Hin as [Hin|[<-|Hin]]; auto.
    rewrite Hs in Hst. discriminate.
Qed.

Lemma matches_accepted_between a b f :
  matches (accepted_between a b) f = true <->
  status f = "Accepted"%string /\
  ((requester f = a /\ requested f = b) \/ (requester f = b /\ requested f = a)).
Proof.
  unfold accepted_between. cbn [matches].
  rewrite andb_true_iff, orb_true_iff, !andb_true_iff, !equals_eq, String.eqb_eq.
  split.
  - intros [[[-> ->]|[-> ->]] Hs]; auto.
  - intros [Hs [[<- <-]|[<- <-]]]; auto.
Qed.

Lemma bool_eq_iff (x y : bool) (P Q : Prop) :
  (x = true <-> P) -> (y = true <-> Q) -> (P <-> Q) -> x = y.
Proof.
  intros Hx Hy HPQ. destruct x, y; trivial.
  - symmetry. apply Hy, HPQ, Hx. reflexivity.
  - apply Hx, HPQ, Hy. reflexivity.
Qed.

Lemma In_friendIds_sym ds a b : In b (friendIds ds a) <-> In a (friendIds ds b).
Proof.
  rewrite !In_friendIds. split; apply accepted_edge_sym.
Qed.

Lemma In_friends_of_friends ds a x :
  In x (filter (not_self a) (List.concat (map (friendIds ds) (friendIds ds a))))
  <-> x <> a /\ exists f, In f (friendIds ds a) /\ In x (friendIds ds f).
Proof.
  rewrite filter_In, TwoHops.not_self_true, in_concat. split.
  - intros [(l & Hl & Hxl) Hne]. apply in_map_iff in Hl.
    destruct Hl as (f & <- & Hf). eauto.
  - intros [Hne (f & Hf & Hxf)]. split; trivial.
    exists (friendIds ds f). split; trivial. apply in_map. exact Hf.
Qed.

End StateFacts.

Module States.
Import RequestFacts FriendshipFacts EngineFacts StateFacts.

(** X5. [friendRequest] stores at most one document: when it hands an
    edge to [done], that edge is Pending, from the requester, dated [now],
    without a date of acceptance, and appended to the collection; in every
    other outcome the collection is untouched.  It never changes what
    [getFriends] answers. *)
Theorem friendRequest_stores_one_pending_or_nothing
    (viewProfile : ObjectId -> string -> callback (option AccountModel.AccountInfo))
    (db : Db) (now : Z) (a : ObjectId) (email : string) :
  let out := fst (AccountModel.friendRequest viewProfile db now a email) in
  let db' := snd (AccountModel.friendRequest viewProfile db now a email) in
  (forall r, out = Called (Ok (Some r)) ->
     requester r = a /\ status r = "Pending"%string /\ dateSent r = now /\
     dateAccepted r = None /\ docs db' = docs db ++ [r]) /\
  ((forall r, out <> Called (Ok (Some r))) -> db' = db) /\
  (forall x, FriendshipModel.getFriends db' x = FriendshipModel.getFriends db x).
Proof.
  intros out db'. subst out db'.
  destruct (friendRequest_cases viewProfile db now a email)
    as [[Hs Hno]|(b & Hf & H)].
  - split; [|split].
    + intros r Hr. destruct (Hno r Hr).
    + intros _. exact Hs.
    + intros x. rewrite Hs. reflexivity.
  - rewrite H. cbn [fst snd]. split; [|split].
    + intros r Hr. injection Hr as <-. repeat split.
    + intros Hno. destruct (Hno _ eq_refl).
    + intros x. apply getFriends_docs; [symmetry; exact Hf|].
      cbn [healthy docs]. rewrite friendIds_app.
      rewrite friendIds_not_accepted; [apply app_nil_r | discriminate].
Qed.

(** X6. In every state the engine can reach from the empty collection,
    each edge is either Pending without a date of acceptance or Accepted
    with one: no other status is ever stored, and [dateAccepted] is set
    exactly on the Accepted edges. *)
Theorem reachable_edges_are_well_formed (db : Db) :
  reachable db -> Forall well_formed (docs db).
Proof.
  induction 1 as [|db db' _ IH Hstep].
  - constructor.
  - exact (change_well_formed _ _ (step_change _ _ Hstep) IH).
Qed.

(** alice asks bob and he accepts. *)
Lemma reachable_edges_are_well_formed_witness :
  reachable (healthy [accepted_at 20 (Mongoose.create 10 Sample.alice Sample.bob)]) /\
  Forall well_formed [accepted_at 20 (Mongoose.create 10 Sample.alice Sample.bob)].
Proof.
  assert (H : reachable
            (healthy [accepted_at 20 (Mongoose.create 10 Sample.alice Sample.bob)])).
  { apply (reachable_step (healthy [Mongoose.create 10 Sample.alice Sample.bob])).
    - apply (reachable_step (healthy [])); [apply reachable_empty|].
      apply (step_friendRequest _ _ Sample.directory 10 Sample.alice
               "bob@example.org" (Called (Ok (Some (Mongoose.create 10 Sample.alice Sample.bob))))).
      reflexivity.
    - apply (step_acceptRequest _ _ true 20 Sample.alice Sample.bob
               (Ok (accepted_at 20 (Mongoose.create 10 Sample.alice Sample.bob)))).
      reflexivity. }
  split; [exact H|].
  exact (reachable_edges_are_well_formed _ H).
Defined.

(** X7. No operation of the engine removes or rewrites an Accepted edge:
    whatever requests are sent, accepted or denied afterwards, an Accepted
    edge stays in the collection and whoever is in a [getFriends] list
    stays in it. *)
Theorem friendship_is_permanent (db db' : Db) :
  steps db db' ->
  (forall g, In g (docs db) -> status g = "Accepted"%string -> In g (docs db')) /\
  (forall x y,
     in_result y (FriendshipModel.getFriends (answering db) x) ->
     in_result y (FriendshipModel.getFriends (answering db') x)).
Proof.
  intros H.
  assert (Hdocs : forall g, In g (docs db) -> status g = "Accepted"%string ->
                            In g (docs db')).
  { induction H as [db|db db' db'' _ IH Hstep]; trivial.
    intros g Hin Hst. apply (change_keeps_accepted (docs db')); auto.
    apply step_change. exact Hstep. }
  split; [exact Hdocs|].
  intros x y. rewrite !in_result_getFriends. cbn [answering healthy fault docs].
  intros [_ (g & Hin & Hst & Hj)]. split; trivial.
  exists g. auto.
Qed.

(** alice and bob are friends; carol's request to alice is denied. *)
Lemma friendship_is_permanent_witness :
  steps (healthy [Sample.accepted Sample.alice Sample.bob;
                  Mongoose.create 10 Sample.carol Sample.alice])
        (healthy [Sample.accepted Sample.alice Sample.bob]) /\
  (in_result Sample.bob
     (FriendshipModel.getFriends
        (answering (healthy [Sample.accepted Sample.alice Sample.bob;
                             Mongoose.create 10 Sample.carol Sample.alice]))
        Sample.alice) ->
   in_result Sample.bob
     (FriendshipModel.getFriends
        (answering (healthy [Sample.accepted Sample.alice Sample.bob])) Sample.alice)).
Proof.
  assert (H : steps (healthy [Sample.accepted Sample.alice Sample.bob;
                              Mongoose.create 10 Sample.carol Sample.alice])
                    (healthy [Sample.accepted Sample.alice Sample.bob])).
  { eapply steps_more; [apply steps_none|].
    apply (step_denyRequest _ _ Sample.carol Sample.alice
             (Ok (Mongoose.create 10 Sample.carol Sample.alice))).
    reflexivity. }
  split; [exact H|].
  exact (proj2 (friendship_is_permanent _ _ H) Sample.alice Sample.bob).
Defined.

(** X8. [getFriendship(a, b)] finds an edge exactly when [b] is in
    [getFriends(a)]; the edge it finds is an Accepted edge of the
    collection joining the two, the order of the two accounts does not
    matter, and on a store that answers the plugin's [getFriendship]
    finds the same edge. *)
Theorem getFriendship_finds_exactly_the_friends (db : Db) (a b : ObjectId) :
  FriendshipModel.getFriendship db a b = FriendshipModel.getFriendship db b a /\
  ((exists f, FriendshipModel.getFriendship db a b = Ok (Some f)) <->
   in_result b (FriendshipModel.getFriends db a)) /\
  (forall f, FriendshipModel.getFriendship db a b = Ok (Some f) ->
     In f (docs db) /\ status f = "Accepted"%string /\
     ((requester f = a /\ requested f = b) \/ (requester f = b /\ requested f = a))) /\
  (fault db = None ->
     AccountModel.getFriendship db a b = FriendshipModel.getFriendship db a b).
Proof.
  unfold FriendshipModel.getFriendship, AccountModel.getFriendship, Mongoose.findOne.
  fold (accepted_between a b). fold (accepted_between b a).
  assert (Hfound : forall f,
            List.find (matches (accepted_between a b)) (docs db) = Some f ->
            In f (docs db) /\ status f = "Accepted"%string /\
            ((requester f = a /\ requested f = b) \/
             (requester f = b /\ requested f = a))).
  { intros f Hf. apply find_some in Hf. destruct Hf as [Hin Hm].
    apply matches_accepted_between in Hm. tauto. }
  split; [|split; [|split]].
  - destruct (fault db); trivial. f_equal. apply find_ext. intros f.
    destruct (matches (accepted_between a b) f) eqn:E; symmetry.
    + apply matches_accepted_between. apply matches_accepted_between in E. tauto.
    + destruct (matches (accepted_between b a) f) eqn:E'; trivial.
      apply matches_accepted_between in E'.
      assert (E2 : matches (accepted_between a b) f = true)
        by (apply matches_accepted_between; tauto).
      congruence.
  - rewrite in_result_getFriends. destruct (fault db) as [e|].
    + split; [intros (f & Hf); discriminate | intros [Hf _]; discriminate].
    + split.
      * intros (f & Hf). injection Hf as Hf. split; trivial.
        destruct (Hfound f Hf) as (Hin & Hst & Hj). exists f. auto.
      * intros [_ (g & Hin & Hst & Hj)].
        destruct (List.find (matches (accepted_between a b)) (docs db)) as [f|] eqn:E.
        -- exists f. reflexivity.
        -- exfalso. pose proof (proj1 (find_none_iff _ _) E g Hin) as Hg.
           assert (Hg' : matches (accepted_between a b) g = true)
             by (apply matches_accepted_between; auto).
           congruence.
  - intros f Hf. destruct (fault db); [discriminate|].
    injection Hf as Hf. auto.
  - intros ->. reflexivity.
Qed.

(** X9. [getRelationship], [areFriends] and [areFriendsOfFriends] do not
    depend on the order of the two accounts, on any store. *)
Theorem getRelationship_is_symmetric (db : Db) (a b : ObjectId) :
  FriendshipModel.areFriends db a b = FriendshipModel.areFriends db b a /\
  FriendshipModel.areFriendsOfFriends db a b
    = FriendshipModel.areFriendsOfFriends db b a /\
  FriendshipModel.getRelationship db a b = FriendshipModel.getRelationship db b a.
Proof.
  destruct db as [ds [e|]].
  - unfold FriendshipModel.getRelationship, FriendshipModel.areFriends,
      FriendshipModel.areFriendsOfFriends, FriendshipModel.getFriends, Mongoose.find.
    cbn [fault]. auto.
  - change (mkDb ds None) with (healthy ds).
    unfold FriendshipModel.getRelationship.
    destruct (areFriends_healthy ds a b) as (d1 & -> & Hd1).
    destruct (areFriends_healthy ds b a) as (d2 & -> & Hd2).
    destruct (areFriendsOfFriends_healthy ds a b) as (m1 & -> & Hm1).
    destruct (areFriendsOfFriends_healthy ds b a) as (m2 & -> & Hm2).
    assert (Hd : d1 = d2).
    { apply (bool_eq_iff _ _ _ _ Hd1 Hd2).
      rewrite In_friendIds_sym. reflexivity. }
    assert (Hm : m1 = m2).
    { apply (bool_eq_iff _ _ _ _ Hm1 Hm2).
      split; intros (m & H1 & H2); exists m; auto. }
    subst d2 m2. auto.
Qed.

(** X10. The list of [getFriendsOfFriends(a)] and the standalone predicate
    agree: an id [x] is listed exactly when it is not [a] and
    [areFriendsOfFriends(a, x)] answers true; so [getRelationship(a, x)] is
    never NOT_FRIENDS for a listed id. *)
Theorem getFriendsOfFriends_agrees_with_predicate
    (same_object : ObjectId -> ObjectId -> bool)
    (ds : list Friendship) (a : ObjectId) :
  exists result,
    FriendshipModel.getFriendsOfFriends same_object (healthy ds) a = [Ok result] /\
    (forall x, In x result <->
       x <> a /\ FriendshipModel.areFriendsOfFriends (healthy ds) a x = Ok true) /\
    (forall x, In x result ->
       FriendshipModel.getRelationship (healthy ds) a x <> Ok NOT_FRIENDS).
Proof.
  rewrite FanOut.getFriendsOfFriends_healthy. eexists. split; [reflexivity|].
  assert (Hx : forall x,
    In x (filter (not_self a) (List.concat (map (friendIds ds) (friendIds ds a))))
    <-> x <> a /\ FriendshipModel.areFriendsOfFriends (healthy ds) a x = Ok true).
  { intros x. rewrite In_friends_of_friends.
    destruct (areFriendsOfFriends_healthy ds a x) as (m & -> & Hm).
    split.
    - intros [Hne (f & Hf & Hxf)]. split; trivial. f_equal. apply Hm.
      exists f. split; trivial. apply In_friendIds_sym. exact Hxf.
    - intros [Hne Heq]. split; trivial. injection Heq as ->.
      destruct (proj1 Hm eq_refl) as (f & Hf & Hfx).
      exists f. split; trivial. apply In_friendIds_sym. exact Hfx. }
  split; [exact Hx|].
  intros x Hin. apply Hx in Hin. destruct Hin as [_ Hfof].
  unfold FriendshipModel.getRelationship.
  destruct (areFriends_healthy ds a x) as (d & -> & _).
  rewrite Hfof. destruct d; discriminate.
Qed.

End States.

(** * The engine as a whole: the request lists and the plugin's queries *)

Module ListFacts.
Import RequestFacts FriendshipFacts EngineFacts StateFacts.

Lemma getSentRequests_healthy ds x :
  FriendshipModel.getSentRequests (healthy ds) x
  = Ok (filter (matches (All (Requester x) (Status "Pending"))) ds).
Proof. reflexivity. Qed.

Lemma getReceivedRequests_healthy ds x :
  FriendshipModel.getReceivedRequests (healthy ds) x
  = Ok (filter (matches (All (Requested x) (Status "Pending"))) ds).
Proof. reflexivity. Qed.

Lemma healthy_eq db : fault db = None -> db = healthy (docs db).
Proof. destruct db as [ds flt]. simpl. intros ->. reflexivity. Qed.

Lemma matches_sent x f :
  matches (All (Requester x) (Status "Pending")) f = true <->
  requester f = x /\ status f = "Pending"%string.
Proof.
  cbn [matches]. rewrite andb_true_iff, equals_eq, String.eqb_eq.
  split; intros [H1 H2]; split; congruence.
Qed.

Lemma matches_received x f :
  matches (All (Requested x) (Status "Pending")) f = true <->
  requested f = x /\ status f = "Pending"%string.
Proof.
  cbn [matches]. rewrite andb_true_iff, equals_eq, String.eqb_eq.
  split; intros [H1 H2]; split; congruence.
Qed.

Lemma matches_false_iff c f (P : Prop) :
  (matches c f = true <-> P) -> ~ P -> matches c f = false.
Proof.
  intros H Hn. destruct (matches c f); trivial. exfalso. apply Hn, H. reflexivity.
Qed.

Lemma matches_true_iff c f (P : Prop) :
  (matches c f = true <-> P) -> P -> matches c f = true.
Proof. intros H HP. apply H. exact HP. Qed.

Lemma filter_none {A : Type} (p : A -> bool) (l : list A) :
  (forall x, In x l -> p x = false) -> filter p l = [].
Proof.
  induction l as [|y l IH]; intros H; simpl; trivial.
  rewrite (H y) by (left; reflexivity). apply IH. intros x Hx. apply H. right. exact Hx.
Qed.

Lemma filter_all {A : Type} (p : A -> bool) (l : list A) :
  (forall x, In x l -> p x = true) -> filter p l = l.
Proof.
  induction l as [|y l IH]; intros H; simpl; trivial.
  rewrite (H y) by (left; reflexivity). f_equal. apply IH.
  intros x Hx. apply H. right. exact Hx.
Qed.

Lemma filter_nil_inv {A : Type} (p : A -> bool) (l : list A) :
  filter p l = [] -> forall x, In x l -> p x = false.
Proof.
  intros H x Hx. destruct (p x) eqn:E; trivial.
  assert (Hin : In x (filter p l)) by (apply filter_In; auto).
  rewrite H in Hin. destruct Hin.
Qed.

(** Selecting accounts keeps their [_id]s distinct. *)
Lemma selected_ids_distinct (keep : Privacy.Account -> bool)
    (accs : list Privacy.Account) :
  NoDup (map Privacy._id accs) -> NoDup (map Privacy._id (filter keep accs)).
Proof.
  intros Hnd. induction accs as [|acc accs IH]; [exact Hnd|].
  cbn [map] in Hnd. apply NoDup_cons_iff in Hnd. destruct Hnd as [Hfresh Hrest].
  cbn [filter]. destruct (keep acc); [|exact (IH Hrest)].
  cbn [map]. apply NoDup_cons; [|exact (IH Hrest)].
  intros Hin. apply Hfresh. apply in_map_iff in Hin.
  destruct Hin as (other & Hid & Hin). apply filter_In in Hin.
  apply in_map_iff. exists other. tauto.
Qed.

Lemma existsb_equals id ids : existsb (equals id) ids = true <-> In id ids.
Proof.
  rewrite existsb_exists. split.
  - intros (x & Hin & He). apply equals_eq in He. congruence.
  - intros H. exists id. split; trivial. apply equals_refl.
Qed.

(** What the [$in] query of the plugin answers with. *)
Lemma find_in_spec accs ids :
  exists found,
    AccountQueries.find_in (AccountQueries.mkAccounts accs None) ids = Ok found /\
    (NoDup (map Privacy._id accs) -> NoDup (map Privacy._id found)) /\
    (forall acc, In acc found <-> In acc accs /\ In (Privacy._id acc) ids).
Proof.
  eexists. split; [reflexivity|]. split.
  - apply selected_ids_distinct.
  - intros acc. rewrite filter_In, existsb_equals. reflexivity.
Qed.

Lemma accepted_is_listed before f after now :
  In (requested f) (friendIds (before ++ accepted_at now f :: after) (requester f)).
Proof.
  apply In_friendIds. exists (accepted_at now f).
  split; [apply in_or_app; right; left; reflexivity|].
  split; [reflexivity|]. left. auto.
Qed.

End ListFacts.

Module Lists.
Import RequestFacts FriendshipFacts EngineFacts StateFacts ListFacts.

(** X11. The edge a successful [friendRequest] stores comes last in the
    requester's [getSentRequests] and last in the requested account's
    [getReceivedRequests]; the lists of all other accounts are as
    before. *)
Theorem friendRequest_is_listed_as_sent_and_received
    (viewProfile : ObjectId -> string -> callback (option AccountModel.AccountInfo))
    (db : Db) (now : Z) (a : ObjectId) (email : string)
    (r : Friendship) (db' : Db) :
  AccountModel.friendRequest viewProfile db now a email
    = (Called (Ok (Some r)), db') ->
  exists sent received,
    FriendshipModel.getSentRequests db a = Ok sent /\
    FriendshipModel.getReceivedRequests db (requested r) = Ok received /\
    FriendshipModel.getSentRequests db' a = Ok (sent ++ [r]) /\
    FriendshipModel.getReceivedRequests db' (requested r) = Ok (received ++ [r]) /\
    (forall x, x <> a ->
       FriendshipModel.getSentRequests db' x = FriendshipModel.getSentRequests db x) /\
    (forall x, x <> requested r ->
       FriendshipModel.getReceivedRequests db' x
       = FriendshipModel.getReceivedRequests db x).
Proof.
  intros H.
  destruct (friendRequest_created viewProfile _ _ _ _ _ _ H)
    as (info & _ & _ & _ & Hf & -> & ->).
  rewrite (healthy_eq db Hf). cbn [healthy docs].
  set (b := AccountModel._id info). cbn [Mongoose.create requested].
  rewrite !getSentRequests_healthy, !getReceivedRequests_healthy.
  eexists. eexists. split; [reflexivity|]. split; [reflexivity|].
  split; [|split; [|split]].
  - rewrite filter_app. cbn [filter].
    rewrite (matches_true_iff _ _ _ (matches_sent a _)) by (split; reflexivity).
    reflexivity.
  - rewrite filter_app. cbn [filter].
    rewrite (matches_true_iff _ _ _ (matches_received b _)) by (split; reflexivity).
    reflexivity.
  - intros x Hx. rewrite !getSentRequests_healthy, filter_app. cbn [filter].
    rewrite (matches_false_iff _ _ _ (matches_sent x _)).
    + rewrite app_nil_r. reflexivity.
    + cbn [Mongoose.create requester]. intros [Hr _]. congruence.
  - intros x Hx. rewrite !getReceivedRequests_healthy, filter_app. cbn [filter].
    rewrite (matches_false_iff _ _ _ (matches_received x _)).
    + rewrite app_nil_r. reflexivity.
    + cbn [Mongoose.create requested]. intros [Hr _]. congruence.
Qed.

(** alice asks bob on an empty store. *)
Lemma friendRequest_is_listed_as_sent_and_received_witness :
  AccountModel.friendRequest Sample.directory (healthy []) 10 Sample.alice
      "bob@example.org"
    = (Called (Ok (Some (Mongoose.create 10 Sample.alice Sample.bob))),
       healthy [Mongoose.create 10 Sample.alice Sample.bob]) /\
  exists sent received,
    FriendshipModel.getSentRequests (healthy []) Sample.alice = Ok sent /\
    FriendshipModel.getReceivedRequests (healthy []) Sample.bob = Ok received /\
    FriendshipModel.getSentRequests
        (healthy [Mongoose.create 10 Sample.alice Sample.bob]) Sample.alice
      = Ok (sent ++ [Mongoose.create 10 Sample.alice Sample.bob]).
Proof.
  split; [reflexivity|].
  destruct (friendRequest_is_listed_as_sent_and_received Sample.directory
              (healthy []) 10 Sample.alice "bob@example.org"
              (Mongoose.create 10 Sample.alice Sample.bob)
              (healthy [Mongoose.create 10 Sample.alice Sample.bob]) eq_refl)
    as (sent & received & H1 & H2 & H3 & _).
  exists sent, received. auto.
Defined.

(** X12. A successful [acceptRequest(a, b)] takes the accepted request,
    and nothing else, off [getSentRequests(a)] and off
    [getReceivedRequests(b)]; the request lists of all other accounts are
    as before. *)
Theorem acceptRequest_takes_the_request_off_the_lists
    (returnNew : bool) (db : Db) (now : Z) (a b : ObjectId)
    (f' : Friendship) (db' : Db) :
  FriendshipModel.acceptRequest returnNew db now a b = (Ok f', db') ->
  exists f sent received,
    f' = (if returnNew then accepted_at now f else f) /\
    FriendshipModel.getSentRequests db a = Ok sent /\
    FriendshipModel.getReceivedRequests db b = Ok received /\
    In f sent /\ In f received /\
    FriendshipModel.getSentRequests db' a = Ok (Mongoose.remove_one f sent) /\
    FriendshipModel.getReceivedRequests db' b = Ok (Mongoose.remove_one f received) /\
    (forall x, x <> a ->
       FriendshipModel.getSentRequests db' x = FriendshipModel.getSentRequests db x) /\
    (forall x, x <> b ->
       FriendshipModel.getReceivedRequests db' x
       = FriendshipModel.getReceivedRequests db x).
Proof.
  intros H. apply acceptRequest_ok_inv in H.
  destruct H as (before & f & after & Hf & Hd & Hb & Hr & Hq & Hs & -> & ->).
  rewrite (healthy_eq db Hf), Hd.
  assert (Hacc : forall c, (forall g, matches c g = true -> status g = "Pending"%string) ->
                 matches c (accepted_at now f) = false).
  { intros c Hc. destruct (matches c (accepted_at now f)) eqn:E; trivial.
    apply Hc in E. discriminate. }
  assert (Hsent : forall x,
    filter (matches (All (Requester x) (Status "Pending")))
           (before ++ accepted_at now f :: after)
    = filter (matches (All (Requester x) (Status "Pending"))) before
      ++ filter (matches (All (Requester x) (Status "Pending"))) after).
  { intros x. rewrite filter_app. cbn [filter]. rewrite Hacc; trivial.
    intros g Hg. apply matches_sent in Hg. tauto. }
  assert (Hrecv : forall x,
    filter (matches (All (Requested x) (Status "Pending")))
           (before ++ accepted_at now f :: after)
    = filter (matches (All (Requested x) (Status "Pending"))) before
      ++ filter (matches (All (Requested x) (Status "Pending"))) after).
  { intros x. rewrite filter_app. cbn [filter]. rewrite Hacc; trivial.
    intros g Hg. apply matches_received in Hg. tauto. }
  assert (Hnot : forall p : Friendship -> bool, ~ In f (filter p before)).
  { intros p Hin. apply filter_In in Hin. destruct Hin as [Hin _].
    pose proof (Hb f Hin) as Hm.
    assert (Hm' : matches (pending_request a b) f = true)
      by (apply matches_pending_request; auto).
    congruence. }
  exists f. eexists. eexists. split; [reflexivity|].
  rewrite !getSentRequests_healthy, !getReceivedRequests_healthy.
  split; [reflexivity|]. split; [reflexivity|].
  rewrite Hsent, Hrecv, !filter_app. cbn [filter].
  rewrite (matches_true_iff _ _ _ (matches_sent a f)) by auto.
  rewrite (matches_true_iff _ _ _ (matches_received b f)) by auto.
  split; [apply in_or_app; right; left; reflexivity|].
  split; [apply in_or_app; right; left; reflexivity|].
  split; [rewrite remove_one_middle by apply Hnot; reflexivity|].
  split; [rewrite remove_one_middle by apply Hnot; reflexivity|].
  split.
  - intros x Hx. rewrite !getSentRequests_healthy, Hsent, filter_app. cbn [filter].
    rewrite (matches_false_iff _ _ _ (matches_sent x f)); [reflexivity|].
    intros [Hr' _]. congruence.
  - intros x Hx. rewrite !getReceivedRequests_healthy, Hrecv, filter_app. cbn [filter].
    rewrite (matches_false_iff _ _ _ (matches_received x f)); [reflexivity|].
    intros [Hr' _]. congruence.
Qed.

(** bob accepts the only request there is. *)
Lemma acceptRequest_takes_the_request_off_the_lists_witness :
  FriendshipModel.acceptRequest true
      (healthy [Mongoose.create 10 Sample.alice Sample.bob]) 20 Sample.alice Sample.bob
    = (Ok (accepted_at 20 (Mongoose.create 10 Sample.alice Sample.bob)),
       healthy [accepted_at 20 (Mongoose.create 10 Sample.alice Sample.bob)]) /\
  exists f sent,
    FriendshipModel.getSentRequests
        (healthy [Mongoose.create 10 Sample.alice Sample.bob]) Sample.alice = Ok sent /\
    FriendshipModel.getSentRequests
        (healthy [accepted_at 20 (Mongoose.create 10 Sample.alice Sample.bob)])
        Sample.alice = Ok (Mongoose.remove_one f sent).
Proof.
  split; [reflexivity|].
  destruct (acceptRequest_takes_the_request_off_the_lists true
              (healthy [Mongoose.create 10 Sample.alice Sample.bob]) 20
              Sample.alice Sample.bob _ _ eq_refl)
    as (f & sent & received & _ & H1 & _ & _ & _ & H2 & _).
  exists f, sent. auto.
Defined.

(** X13. The plugin's [getFriends] and [getFriendsOfFriends] answer with
    the accounts whose [_id] is among the ids of the friendship model, and
    with no others; when the accounts collection holds each [_id] once,
    each account comes once, however often its id is listed. *)
Theorem plugin_queries_list_each_account_once
    (same_object : ObjectId -> ObjectId -> bool)
    (accs : list Privacy.Account) (ds : list Friendship) (a : ObjectId) :
  NoDup (map Privacy._id accs) ->
  let acs := AccountQueries.mkAccounts accs None in
  (exists ids found,
     FriendshipModelB.getFriendsOfFriends same_object (healthy ds) a = [Ok ids] /\
     AccountQueries.getFriendsOfFriends same_object acs (healthy ds) a = [Ok found] /\
     NoDup (map Privacy._id found) /\
     forall acc, In acc found <-> In acc accs /\ In (Privacy._id acc) ids) /\
  (exists ids found,
     FriendshipModelB.getFriends (healthy ds) a = Ok ids /\
     AccountQueries.getFriends acs (healthy ds) a = Ok found /\
     NoDup (map Privacy._id found) /\
     forall acc, In acc found <-> In acc accs /\ In (Privacy._id acc) ids).
Proof.
  intros Hnd acs. split.
  - unfold AccountQueries.getFriendsOfFriends, FriendshipModelB.getFriendsOfFriends.
    rewrite FanOut.getFriendsOfFriends_healthy. cbn [map].
    destruct (find_in_spec accs
                (filter (not_self a) (List.concat (map (friendIds ds) (friendIds ds a)))))
      as (found & Hfound & Hn & Hin).
    eexists. exists found. split; [reflexivity|].
    unfold acs. rewrite Hfound. auto.
  - unfold AccountQueries.getFriends, FriendshipModelB.getFriends.
    rewrite getFriends_healthy.
    destruct (find_in_spec accs (friendIds ds a)) as (found & Hfound & Hn & Hin).
    eexists. exists found. split; [reflexivity|].
    unfold acs. rewrite Hfound. auto.
Qed.

(** On the diamond store dave's id is listed twice and his account
    once. *)
Lemma plugin_queries_list_each_account_once_witness :
  NoDup (map Privacy._id [Sample.dave_open]) /\
  FriendshipModelB.getFriendsOfFriends equals Sample.diamond Sample.alice
    = [Ok [Sample.dave; Sample.dave]] /\
  exists found,
    AccountQueries.getFriendsOfFriends equals
        (AccountQueries.mkAccounts [Sample.dave_open] None) Sample.diamond Sample.alice
      = [Ok found] /\
    NoDup (map Privacy._id found).
Proof.
  assert (Hnd : NoDup (map Privacy._id [Sample.dave_open])).
  { constructor; [intros [] | constructor]. }
  split; [exact Hnd|]. split; [reflexivity|].
  destruct (plugin_queries_list_each_account_once equals [Sample.dave_open]
              [Sample.accepted Sample.alice Sample.bob;
               Sample.accepted Sample.alice Sample.carol;
               Sample.accepted Sample.bob Sample.dave;
               Sample.accepted Sample.carol Sample.dave] Sample.alice Hnd)
    as ((ids & found & _ & Hq & Hn & _) & _).
  exists found. split; [exact Hq | exact Hn].
Defined.

End Lists.

(** * The engine as a whole: the two friendship modules and the plugin *)

Module Versions.
Import RequestFacts FriendshipFacts EngineFacts StateFacts ListFacts.

(** X14. Nothing guards against a request to oneself: when the address
    resolves to the requester's own account, [friendRequest] stores a
    Pending edge from the account to itself, and once it is accepted the
    account is in its own [getFriends] and [getRelationship] calls it its
    own friend. *)
Theorem no_guard_against_a_request_to_oneself
    (viewProfile : ObjectId -> string -> callback (option AccountModel.AccountInfo))
    (ds : list Friendship) (now later : Z) (a : ObjectId) (email : string) :
  viewProfile a email = Ok (Some (AccountModel.mkAccountInfo a true)) ->
  List.find (matches (accepted_between a a)) ds = None ->
  exists r db1 f db2,
    AccountModel.friendRequest viewProfile (healthy ds) now a email
      = (Called (Ok (Some r)), db1) /\
    requester r = a /\ requested r = a /\
    FriendshipModel.acceptRequest true db1 later a a = (Ok f, db2) /\
    in_result a (FriendshipModel.getFriends db2 a) /\
    FriendshipModel.getRelationship db2 a a = Ok FRIENDS.
Proof.
  intros Hvp Hnone.
  pose proof (friendRequest_succeeds viewProfile ds now a email _ Hvp Hnone eq_refl)
    as Hreq. cbn [AccountModel._id] in Hreq.
  exists (Mongoose.create now a a), (healthy (ds ++ [Mongoose.create now a a])).
  destruct (acceptRequest_cases true (healthy (ds ++ [Mongoose.create now a a])) later a a)
    as [(_ & _ & Hn)|[(e & He & _)|(before & f & after & _ & Hd & _ & Hm & Hacc)]].
  - exfalso. cbn [healthy docs] in Hn.
    pose proof (proj1 (find_none_iff _ _) Hn (Mongoose.create now a a)) as H.
    rewrite create_is_pending in H. discriminate H.
    apply in_or_app. right. left. reflexivity.
  - discriminate He.
  - apply matches_pending_request in Hm. destruct Hm as (Hr & Hq & _).
    exists (accepted_at later f), (healthy (before ++ accepted_at later f :: after)).
    split; [exact Hreq|]. split; [reflexivity|]. split; [reflexivity|].
    split; [exact Hacc|].
    assert (Hin : In a (friendIds (before ++ accepted_at later f :: after) a)).
    { pose proof (accepted_is_listed before f after later) as H.
      rewrite Hr, Hq in H. exact H. }
    split.
    + rewrite getFriends_healthy. exact Hin.
    + apply getRelationship_friends. exact Hin.
Qed.

(** alice asks herself. *)
Lemma no_guard_against_a_request_to_oneself_witness :
  Sample.directory Sample.alice "alice@example.org"
    = Ok (Some (AccountModel.mkAccountInfo Sample.alice true)) /\
  List.find (matches (accepted_between Sample.alice Sample.alice)) [] = None /\
  exists db2,
    in_result Sample.alice (FriendshipModel.getFriends db2 Sample.alice) /\
    FriendshipModel.getRelationship db2 Sample.alice Sample.alice = Ok FRIENDS.
Proof.
  split; [reflexivity|]. split; [reflexivity|].
  destruct (no_guard_against_a_request_to_oneself Sample.directory [] 10 20
              Sample.alice "alice@example.org" eq_refl eq_refl)
    as (r & db1 & f & db2 & _ & _ & _ & _ & H1 & H2).
  exists db2. auto.
Defined.

(** X15. The [acceptRequest] of the two friendship modules change the
    collection in the same way and succeed on the same calls with the same
    edge.  They differ in how a failure is delivered: a missing request
    reaches [done] as an Error object from the one and as a bare string
    from the other, and a driver error reaches [done] from the one and is
    thrown by the other. *)
Theorem acceptRequest_versions_agree
    (returnNew : bool) (db : Db) (now : Z) (a b : ObjectId) :
  snd (FriendshipModelB.acceptRequest returnNew db now a b)
    = snd (FriendshipModel.acceptRequest returnNew db now a b) /\
  (forall f,
     fst (FriendshipModelB.acceptRequest returnNew db now a b) = Called (Ok f) <->
     fst (FriendshipModel.acceptRequest returnNew db now a b) = Ok f) /\
  (forall e,
     fst (FriendshipModel.acceptRequest returnNew db now a b) = Err e ->
     (fault db = Some e /\
      fst (FriendshipModelB.acceptRequest returnNew db now a b) = Thrown (Raised e)) \/
     (fault db = None /\ e = ErrorObject request_does_not_exist /\
      fst (FriendshipModelB.acceptRequest returnNew db now a b)
        = Called (Err (ErrorString request_does_not_exist)))).
Proof.
  split; [apply acceptRequestB_snd|].
  unfold FriendshipModelB.acceptRequest, FriendshipModel.acceptRequest,
    Mongoose.findOneAndUpdate.
  destruct (fault db) as [e0|].
  - cbn [fst]. split.
    + intros f. split; discriminate.
    + intros e He. injection He as <-. left. auto.
  - destruct (Mongoose.update_first _ _ (docs db)) as [[f0|] ds'];
      destruct returnNew; cbn [option_map fst]; split;
      try (intros f; split; intros H; injection H as <-; reflexivity);
      try (intros f; split; discriminate);
      try discriminate;
      intros e He; injection He as <-; right; auto.
Qed.

(** X17. The plugin's [acceptRequest] throws the errors of the friendship
    model instead of handing them to [done]: the only error [done] can get
    is the one of [populate], after the edge was accepted.  It hands over
    an edge exactly when the friendship model's [acceptRequest], called
    with the two ids in the opposite order, accepts that edge and
    [populate] answers. *)
Theorem plugin_acceptRequest_reverses_the_ids
    (returnNew : bool) (accounts_fault : option Error)
    (db : Db) (now : Z) (x y : ObjectId) :
  (forall e db',
     AccountModel.acceptRequest returnNew accounts_fault db now x y
       = (Called (Err e), db') ->
     accounts_fault = Some e /\
     exists f, FriendshipModel.acceptRequest returnNew db now y x = (Ok f, db')) /\
  (forall f db',
     AccountModel.acceptRequest returnNew accounts_fault db now x y
       = (Called (Ok f), db') <->
     accounts_fault = None /\
     FriendshipModel.acceptRequest returnNew db now y x = (Ok f, db')).
Proof.
  unfold AccountModel.acceptRequest, AccountModel.populate,
    FriendshipModelB.acceptRequest, FriendshipModel.acceptRequest.
  destruct (Mongoose.findOneAndUpdate returnNew db _ _) as [[e0|[f0|]] db0];
    destruct accounts_fault as [e1|]; split;
    try (intros e db' H; discriminate H);
    try (intros e db' H; injection H as <- <-; split; [reflexivity | eauto]);
    intros f db'; split;
    try (intros H; discriminate H);
    try (intros [H _]; discriminate H);
    try (intros [_ H]; discriminate H).
  - intros H. injection H as <- <-. auto.
  - intros [_ H]. injection H as <- <-. reflexivity.
Qed.

(** X18. On a collection whose edges are all Pending or Accepted,
    [getRequests(a)] and [getFriends(a)] together account for every edge
    that touches [a]: a Pending one is among the sent or the received
    requests, and the other end of an Accepted one is among the friends.
    The sent requests are exactly the Pending edges from [a], the received
    ones exactly the Pending edges to [a]. *)
Theorem every_edge_is_a_request_or_a_friendship
    (ds : list Friendship) (a : ObjectId) :
  Forall well_formed ds ->
  exists requests friends,
    FriendshipModel.getRequests (healthy ds) a = Ok requests /\
    FriendshipModel.getFriends (healthy ds) a = Ok friends /\
    (forall f, In f (FriendshipModel.sent requests) <->
       In f ds /\ requester f = a /\ status f = "Pending"%string) /\
    (forall f, In f (FriendshipModel.received requests) <->
       In f ds /\ requested f = a /\ status f = "Pending"%string) /\
    (forall f, In f ds -> requester f = a \/ requested f = a ->
       In f (FriendshipModel.sent requests) \/
       In f (FriendshipModel.received requests) \/
       In (FriendshipModel.friendId_of a f) friends).
Proof.
  intros Hwf. unfold FriendshipModel.getRequests.
  rewrite getSentRequests_healthy, getReceivedRequests_healthy, getFriends_healthy.
  eexists. eexists. split; [reflexivity|]. split; [reflexivity|].
  cbn [FriendshipModel.sent FriendshipModel.received].
  assert (Hsent : forall f,
    In f (filter (matches (All (Requester a) (Status "Pending"))) ds) <->
    In f ds /\ requester f = a /\ status f = "Pending"%string).
  { intros f. rewrite filter_In, matches_sent. reflexivity. }
  assert (Hrecv : forall f,
    In f (filter (matches (All (Requested a) (Status "Pending"))) ds) <->
    In f ds /\ requested f = a /\ status f = "Pending"%string).
  { intros f. rewrite filter_In, matches_received. reflexivity. }
  split; [exact Hsent|]. split; [exact Hrecv|].
  intros f Hin Htouch. rewrite Hsent, Hrecv.
  rewrite Forall_forall in Hwf.
  destruct (Hwf f Hin) as [[Hs _]|[Hs _]].
  - destruct Htouch; auto.
  - right. right. unfold friendIds. apply in_map. apply filter_In.
    split; trivial. cbn [matches]. rewrite Hs, String.eqb_refl, andb_true_r.
    apply orb_true_iff. destruct Htouch as [<-|<-]; [left | right]; apply equals_refl.
Qed.

(** alice has a friend and a request waiting. *)
Lemma every_edge_is_a_request_or_a_friendship_witness :
  Forall well_formed [Sample.accepted Sample.alice Sample.bob;
                      Mongoose.create 10 Sample.carol Sample.alice] /\
  exists requests friends,
    FriendshipModel.getRequests
        (healthy [Sample.accepted Sample.alice Sample.bob;
                  Mongoose.create 10 Sample.carol Sample.alice]) Sample.alice
      = Ok requests /\
    FriendshipModel.getFriends
        (healthy [Sample.accepted Sample.alice Sample.bob;
                  Mongoose.create 10 Sample.carol Sample.alice]) Sample.alice
      = Ok friends.
Proof.
  assert (H : Forall well_formed [Sample.accepted Sample.alice Sample.bob;
                                  Mongoose.create 10 Sample.carol Sample.alice]).
  { constructor; [|constructor; [|constructor]].
    - right. split; [reflexivity|]. exists 2000%Z. reflexivity.
    - left. split; reflexivity. }
  split; [exact H|].
  destruct (every_edge_is_a_request_or_a_friendship _ Sample.alice H)
    as (requests & friends & H1 & H2 & _).
  exists requests, friends. auto.
Defined.

End Versions.

(** * The engine as a whole: how often the fan-out calls back *)

Module Callbacks.
Import FanOut.

Lemma no_errors_all_ok {A : Type} (rs : list (callback A)) :
  errors_of rs = [] -> exists ls, rs = map Ok ls.
Proof.
  induction rs as [|[e|v] rs IH]; simpl; intros H.
  - exists []. reflexivity.
  - discriminate.
  - destruct (IH H) as (ls & ->). exists (v :: ls). reflexivity.
Qed.

Lemma errors_count {A : Type} (rs : list (callback A)) :
  List.length (errors_of rs) + count_ok rs = List.length rs.
Proof. induction rs as [|[e|v] rs IH]; simpl; lia. Qed.

(** X19. Once every sub-query of [getFriendsOfFriends] has answered,
    [done] has been called once when none or one of them failed, and once
    for each failure otherwise: nothing keeps a second error from reaching
    the caller. *)
Theorem getFriendsOfFriends_calls_back_once_per_failure
    (same_object : ObjectId -> ObjectId -> bool) (accountId : ObjectId)
    (friendIds : list ObjectId) (completions : list (callback (list ObjectId))) :
  List.length completions = List.length friendIds ->
  List.length
    (FriendshipModel.getFriendsOfFriends_on same_object accountId (Ok friendIds)
       completions)
  = Nat.max 1 (List.length (errors_of completions)).
Proof.
  intros Hlen. unfold FriendshipModel.getFriendsOfFriends_on.
  destruct friendIds as [|f F].
  - destruct completions; [reflexivity | discriminate].
  - cbn [List.length Nat.eqb].
    destruct (errors_of completions) as [|e es] eqn:E.
    + destruct (no_errors_all_ok _ E) as (ls & ->).
      rewrite deliver_all_ok; [reflexivity | | apply Forall_nil |].
      * destruct ls; discriminate.
      * rewrite length_map in Hlen. exact Hlen.
    + rewrite deliver_errors.
      * rewrite length_map, E. simpl. lia.
      * pose proof (errors_count completions) as Hc. rewrite E in Hc.
        simpl in *. lia.
Qed.

(** Both sub-queries fail: [done] is called twice. *)
Lemma getFriendsOfFriends_calls_back_once_per_failure_witness :
  List.length [@Err (list ObjectId) (DriverError 7); Err (DriverError 8)]
    = List.length [Sample.bob; Sample.carol] /\
  List.length
    (FriendshipModel.getFriendsOfFriends_on equals Sample.alice
       (Ok [Sample.bob; Sample.carol]) [Err (DriverError 7); Err (DriverError 8)])
  = 2.
Proof.
  split; [reflexivity|].
  exact (getFriendsOfFriends_calls_back_once_per_failure equals Sample.alice
           [Sample.bob; Sample.carol] [Err (DriverError 7); Err (DriverError 8)]
           eq_refl).
Defined.

End Callbacks.
